(** * p2llvm: the simple serial driver and the SD/MMC disk glue

    A shallow embedding of [libc/drivers/SimpleSerial.c] and
    [libc/drivers/diskio.c].  C integers are [Z] with the wrap-around of
    their type written out; byte buffers are [list Z]; the SPI transport
    under the disk glue is an interface whose calls are recorded in a
    trace. *)

From Stdlib Require Import ZArith List Lia Bool Ascii String.
Import ListNotations.
Local Open Scope Z_scope.

(** Conversion to [unsigned int] (32 bits). *)
Definition to_uint (z : Z) : Z := z mod 2 ^ 32.

(** Conversion to [BYTE] ([unsigned char]). *)
Definition to_byte (z : Z) : Z := z mod 256.

(** * SimpleSerial.c *)

Module SimpleSerial.

(** The fields of [FILE] the driver touches. *)
Record FILE := mkFILE {
  drvarg0 : Z;   (* rxpin, or its mask on the legacy chip *)
  drvarg1 : Z;   (* txpin, or its mask on the legacy chip *)
  drvarg2 : Z;   (* baud *)
  drvarg3 : Z;   (* bitcycles *)
  _flag : Z;
  _lock : Z
}.

(** The pin registers written by the bit-banged routines. *)
Record pins := mkpins { _OUTA : Z; _DIRA : Z }.

(** *** _serial_putbyte (bit-banged branch)

    Time is counted in bit periods: [__builtin_propeller_waitcnt] returns
    once per period, so the transmitter is described by the value held in
    [_OUTA] during each successive period. *)

Fixpoint putbyte_loop (n : nat) (txmask value outa : Z) : list Z * Z :=
  match n with
  | O => ([], outa)
  | S n' =>
      let outa' :=
        if Z.land value 1 =? 0
        then Z.land outa (Z.lnot txmask)
        else Z.lor outa txmask in
      let '(wave, final) := putbyte_loop n' txmask (Z.shiftr value 1) outa' in
      (outa' :: wave, final)
  end.

(** Returns [c], the registers on exit, and the waveform: the period spent
    in the first [waitcnt] with the pin already driven high, then the ten
    periods of the frame. *)
Definition _serial_putbyte (c : Z) (fp : FILE) (p : pins) : Z * pins * list Z :=
  let txmask := drvarg1 fp in
  let outa := Z.lor (_OUTA p) txmask in
  let dira := Z.lor (_DIRA p) txmask in
  let value := Z.shiftl (Z.lor c 256) 1 in
  let '(wave, final) := putbyte_loop 10 txmask value outa in
  (c, {| _OUTA := final; _DIRA := dira |}, outa :: wave).

(** *** _serial_getbyte (bit-banged branch)

    The receiver sees [_INA] once per bit period, from the moment of the
    call.  [None] means the routine is still blocked when the observed
    input ends. *)

(** [__builtin_propeller_waitpeq(state, mask)]: the input from the first
    period on in which [(_INA & mask) == state]. *)
Fixpoint waitpeq (state mask : Z) (ina : list Z) : option (list Z) :=
  match ina with
  | [] => None
  | x :: rest =>
      if Z.land x mask =? state then Some ina else waitpeq state mask rest
  end.

Fixpoint getbyte_loop (n : nat) (rxmask value : Z) (ina : list Z) : option Z :=
  match n with
  | O => Some value
  | S n' =>
      match ina with
      | [] => None
      | x :: rest =>
          let sample := if Z.land x rxmask =? 0 then 0 else 1 in
          getbyte_loop n' rxmask
            (Z.lor (Z.shiftl sample 7) (Z.shiftr value 1)) rest
      end
  end.

Section GetByte.

(** [_IONONBLOCK] comes from a header that is not part of the driver. *)
Variable _IONONBLOCK : Z.

(** The start bit is found in the head of [from_start]; the first sample
    is taken one and a half periods later, in the next element; after the
    eighth sample the routine waits, from that same period on, for the
    line to be high. *)
Definition _serial_getbyte (fp : FILE) (p : pins) (ina : list Z)
  : option Z * pins :=
  let rxmask := drvarg0 fp in
  let p' := {| _OUTA := _OUTA p; _DIRA := Z.land (_DIRA p) (Z.lnot rxmask) |} in
  let receive (from_start : list Z) :=
    match getbyte_loop 8 rxmask 0 (skipn 1 from_start) with
    | None => None
    | Some value =>
        match waitpeq rxmask rxmask (skipn 8 from_start) with
        | None => None
        | Some _ => Some value
        end
    end in
  if negb (Z.land (_flag fp) _IONONBLOCK =? 0) then
    match ina with
    | [] => (None, p')
    | x :: _ =>
        if negb (Z.land x rxmask =? 0) then (Some (-1), p')
        else (receive ina, p')
    end
  else
    match waitpeq 0 rxmask ina with
    | None => (None, p')
    | Some from_start => (receive from_start, p')
    end.

End GetByte.

(** The receive pin is wired to the transmit pin: in every period the bit
    of [_INA] at [rxpin] is the bit of [_OUTA] at [txpin]. *)
Definition looped_back (txpin rxpin : Z) (wave ina : list Z) : Prop :=
  Forall2 (fun o i => Z.testbit i rxpin = Z.testbit o txpin) wave ina.

(** The line levels of a waveform at one pin. *)
Definition levels (pin : Z) (wave : list Z) : list bool :=
  map (fun o => Z.testbit o pin) wave.

(** The byte whose bits, least significant first, are [bs]. *)
Fixpoint bits_value (bs : list bool) : Z :=
  match bs with
  | [] => 0
  | b :: rest => Z.b2z b + 2 * bits_value rest
  end.

(** *** SimpleSerialExit

    The body of the destructor: the transmit pin of the default channel is
    left high and driven. *)
Definition SimpleSerialExit (_txpin : Z) (p : pins) : pins :=
  {| _OUTA := Z.lor (_OUTA p) (Z.shiftl 1 _txpin);
     _DIRA := Z.lor (_DIRA p) (Z.shiftl 1 _txpin) |}.

(** The ten-bit frame of a byte, and what it must be: start bit low, the
    eight data bits least significant first, stop bit high. *)
Definition frame (b : Z) : Z := Z.shiftl (Z.lor b 256) 1.

Definition frame_ok (b : Z) : bool :=
  negb (Z.testbit (frame b) 0)
  && (bits_value (map (fun k => Z.testbit (frame b) (Z.of_nat k)) (seq 1 8))
      =? b)
  && Z.testbit (frame b) 9.

(** *** _serial_fopen

    A C string is the characters before its terminating NUL; [deref] reads
    the character under the pointer (NUL at the end of the string) and
    [advance] steps the pointer. *)

Local Open Scope char_scope.

Definition deref (s : string) : ascii :=
  match s with
  | EmptyString => zero
  | String c _ => c
  end.

Definition advance (s : string) : string :=
  match s with
  | EmptyString => EmptyString
  | String _ rest => rest
  end.

Definition nonzero (c : ascii) : bool := negb (Ascii.eqb c zero).

(** The loop that advances [name] to the next comma or to the end. *)
Fixpoint scan_field (s : string) : string :=
  match s with
  | EmptyString => s
  | String c rest =>
      if nonzero c && negb (Ascii.eqb c ",") then scan_field rest else s
  end.

(** Modelled from the spec: [atoi] is the C library's and not among the
    sources; this is the ISO C function: leading white space, an optional
    sign, then decimal digits up to the first other character. *)
Definition isspace (c : ascii) : bool :=
  let n := nat_of_ascii c in
  (Nat.eqb n 32 || (Nat.leb 9 n && Nat.leb n 13))%bool.

Definition digit_of (c : ascii) : option Z :=
  let n := nat_of_ascii c in
  if (Nat.leb 48 n && Nat.leb n 57)%bool then Some (Z.of_nat n - 48) else None.

Fixpoint atoi_digits (acc : Z) (s : string) : Z :=
  match s with
  | EmptyString => acc
  | String c rest =>
      match digit_of c with
      | Some d => atoi_digits (10 * acc + d) rest
      | None => acc
      end
  end.

Definition atoi_signed (s : string) : Z :=
  match s with
  | String "-" rest => - atoi_digits 0 rest
  | String "+" rest => atoi_digits 0 rest
  | _ => atoi_digits 0 s
  end.

Fixpoint atoi (s : string) : Z :=
  match s with
  | EmptyString => 0
  | String c rest => if isspace c then atoi rest else atoi_signed s
  end.

Local Close Scope char_scope.

Section Open.

(** The compiled-in defaults, the device flag and the lock allocator come
    from headers and library code outside the driver. *)
Variables DBG_UART_TX_PIN DBG_UART_RX_PIN _dbgbaud : Z.
Variable _IODEV : Z.
Variable _locknew : Z.
Variable c_atoi : string -> Z.

(** The [__propeller2__] configuration (the other branch assigns a variable
    the function does not declare).  [name] is [None] for a null pointer.
    The result is the return value, the file on exit and the arguments of
    the call to [_uart_init]. *)
Definition _serial_fopen (fp : FILE) (name : option string)
  : Z * FILE * (Z * Z * Z) :=
  let txpin := DBG_UART_TX_PIN in
  let rxpin := DBG_UART_RX_PIN in
  let baud := _dbgbaud in
  let '(baud, rxpin, txpin) :=
    match name with
    | None => (baud, rxpin, txpin)
    | Some name =>
        if nonzero (deref name) then
          let baud := to_uint (c_atoi name) in
          let name := scan_field name in
          if nonzero (deref name) then
            let name := advance name in
            let rxpin := to_uint (c_atoi name) in
            let name := scan_field name in
            if nonzero (deref name) then
              let name := advance name in
              let txpin := to_uint (c_atoi name) in
              (baud, rxpin, txpin)
            else (baud, rxpin, txpin)
          else (baud, rxpin, txpin)
        else (baud, rxpin, txpin)
    end in
  (0,
   {| drvarg0 := rxpin; drvarg1 := txpin; drvarg2 := baud;
      drvarg3 := drvarg3 fp;
      _flag := Z.lor (_flag fp) _IODEV;
      _lock := _locknew |},
   (rxpin, txpin, baud)).

End Open.

(** A field of the connection string: no comma and no NUL inside. *)
Fixpoint is_field (s : string) : bool :=
  match s with
  | EmptyString => true
  | String c rest =>
      (nonzero c && negb (Ascii.eqb c ","%char) && is_field rest)%bool
  end.

End SimpleSerial.

(** * diskio.c *)

Module DiskIO.

(** Modelled from the spec: [sd_mmc.h] is not among the sources.  The
    command codes it defines are kept as the names the driver uses. *)
Inductive command :=
| CMD0 | CMD1 | CMD8 | CMD9 | CMD12 | CMD16 | CMD17 | CMD18
| CMD24 | CMD25 | CMD58 | ACMD23 | ACMD41.

Definition command_eqb (a b : command) : bool :=
  match a, b with
  | CMD0, CMD0 | CMD1, CMD1 | CMD8, CMD8 | CMD9, CMD9 | CMD12, CMD12
  | CMD16, CMD16 | CMD17, CMD17 | CMD18, CMD18 | CMD24, CMD24
  | CMD25, CMD25 | CMD58, CMD58 | ACMD23, ACMD23 | ACMD41, ACMD41 => true
  | _, _ => false
  end.

(** The card-type bits, as the comment on [CardType] lists them:
    b0 MMC, b1 SDv1, b2 SDv2, b3 block addressing. *)
Definition CT_MMC : Z := 1.
Definition CT_SDC1 : Z := 2.
Definition CT_SDC2 : Z := 4.
Definition CT_SDC : Z := Z.lor CT_SDC1 CT_SDC2.
Definition CT_BLOCK : Z := 8.

(** Modelled from the spec: [diskio.h] is not among the sources; these are
    the result type, the status bit and the control codes of the FatFs
    block-device contract. *)
Inductive DRESULT := RES_OK | RES_ERROR | RES_WRPRT | RES_NOTRDY | RES_PARERR.

Definition STA_NOINIT : Z := 1.
Definition CTRL_SYNC : Z := 0.
Definition GET_SECTOR_COUNT : Z := 1.
Definition GET_SECTOR_SIZE : Z := 2.
Definition GET_BLOCK_SIZE : Z := 3.

(** The polling bound of both initialisation loops. *)
Definition POLL_LIMIT : Z := 10000.

(** ** The transport

    [SendCommand], [ReceiveSD], [ReceiveBlock], [SendBlock], [EnableSD],
    [SelectSD] and [ReleaseSD] are declared in [sd_mmc.h] and implemented
    elsewhere.  They are an interface over a hidden state [card] (the bus
    and every card on it); a receive call yields the bytes it delivers. *)
Class Transport (card : Type) := {
  EnableSD_t : Z -> card -> card;
  ReleaseSD_t : Z -> card -> card;
  SelectSD_t : Z -> card -> Z * card;
  SendCommand_t : Z -> command -> Z -> card -> Z * card;
  ReceiveSD_t : Z -> nat -> card -> list Z * card;
  ReceiveBlock_t : Z -> nat -> card -> list Z * Z * card;
  SendBlock_t : Z -> option (list Z) -> Z -> card -> Z * card
}.

(** What the driver does on the bus, in order. *)
Inductive event :=
| EvEnable (pdrv : Z)
| EvRelease (pdrv : Z)
| EvSelect (pdrv : Z) (r : Z)
| EvCommand (pdrv : Z) (cmd : command) (arg : Z) (r : Z)
| EvReceive (pdrv : Z) (len : nat) (data : list Z)
| EvReceiveBlock (pdrv : Z) (len : nat) (data : list Z) (r : Z)
| EvSendBlock (pdrv : Z) (data : option (list Z)) (token : Z) (r : Z)
| EvWaits.

(** [len] bytes as they land in a [BYTE] array. *)
Definition block (len : nat) (data : list Z) : list Z :=
  map to_byte (firstn len (data ++ repeat 0 len)).

(** [buff] with [blk] written at offset [off]. *)
Definition store (buff : list Z) (off : nat) (blk : list Z) : list Z :=
  firstn off buff ++ blk ++ skipn (off + List.length blk) buff.

(** A shift of an [unsigned int].  For a count in 0..31 this is the C
    shift; the five low bits of the count are used, as the barrel shifter
    does, where C leaves the result open. *)
Definition shl_uint (x k : Z) : Z := to_uint (Z.shiftl x (k mod 32)).

Section Driver.

Context {card : Type} {transport : Transport card}.

(** The process state: the bus and the one static variable of the file. *)
Record state := mkstate { bus : card; CardType : Z }.

(** Driver code runs over the state and emits the events of its calls. *)
Definition M (A : Type) : Type := state -> A * state * list event.

Definition ret {A} (a : A) : M A := fun s => (a, s, []).

Definition bind {A B} (m : M A) (k : A -> M B) : M B :=
  fun s =>
    let '(a, s1, t1) := m s in
    let '(b, s2, t2) := k a s1 in
    (b, s2, t1 ++ t2).

Notation "x <- m ;; k" := (bind m (fun x => k))
  (at level 61, m at next level, right associativity).
Notation "' pat <- m ;; k" := (bind m (fun x => match x with pat => k end))
  (at level 61, pat pattern, m at next level, right associativity).
Notation "m ;; k" := (bind m (fun _ => k))
  (at level 61, right associativity).

Definition get_CardType : M Z := fun s => (CardType s, s, []).

Definition set_CardType (v : Z) : M unit :=
  fun s => (tt, {| bus := bus s; CardType := v |}, []).

Definition on_bus {A} (f : card -> A * card) (ev : A -> event) : M A :=
  fun s =>
    let '(a, c) := f (bus s) in
    (a, {| bus := c; CardType := CardType s |}, [ev a]).

Definition EnableSD (pdrv : Z) : M unit :=
  on_bus (fun c => (tt, EnableSD_t pdrv c)) (fun _ => EvEnable pdrv).

Definition ReleaseSD (pdrv : Z) : M unit :=
  on_bus (fun c => (tt, ReleaseSD_t pdrv c)) (fun _ => EvRelease pdrv).

Definition SelectSD (pdrv : Z) : M Z :=
  on_bus (SelectSD_t pdrv) (EvSelect pdrv).

Definition SendCommand (pdrv : Z) (cmd : command) (arg : Z) : M Z :=
  on_bus (SendCommand_t pdrv cmd arg) (EvCommand pdrv cmd arg).

(** The bytes written into the caller's array. *)
Definition ReceiveSD (pdrv : Z) (len : nat) : M (list Z) :=
  on_bus (fun c => let '(d, c') := ReceiveSD_t pdrv len c in (block len d, c'))
         (EvReceive pdrv len).

Definition ReceiveBlock (pdrv : Z) (len : nat) : M (list Z * Z) :=
  on_bus (fun c => let '(d, r, c') := ReceiveBlock_t pdrv len c in
                   ((block len d, r), c'))
         (fun a => EvReceiveBlock pdrv len (fst a) (snd a)).

Definition SendBlock (pdrv : Z) (data : option (list Z)) (token : Z) : M Z :=
  on_bus (SendBlock_t pdrv data token) (EvSendBlock pdrv data token).

(** The delay between two polls; it does not touch the bus. *)
Definition WAITS : M unit := fun s => (tt, s, [EvWaits]).

(** *** disk_status *)
Definition disk_status (pdrv : Z) : Z := 0.

(** *** disk_initialize *)

(** The hundred one-byte receives that clock the card before CMD0. *)
Fixpoint dummy_clocks (n : nat) (pdrv : Z) : M unit :=
  match n with
  | O => ret tt
  | S n' => ReceiveSD pdrv 1 ;; dummy_clocks n' pdrv
  end.

(** [for (i = ...; i < limit; i++) { if (SendCommand(...) == 0) break; WAITS; }]
    with [n] iterations left; the result is [i] on exit. *)
Fixpoint poll_loop (n : nat) (i : Z) (pdrv : Z) (cmd : command) (arg : Z)
  : M Z :=
  match n with
  | O => ret i
  | S n' =>
      r <- SendCommand pdrv cmd arg ;;
      if r =? 0 then ret i
      else WAITS ;; poll_loop n' (i + 1) pdrv cmd arg
  end.

(** The body up to the assignment of [CardType]: the classified type. *)
Definition classify (pdrv : Z) : M Z :=
  r0 <- SendCommand pdrv CMD0 0 ;;
  if r0 =? 1 then
    r8 <- SendCommand pdrv CMD8 426 ;;
    if r8 =? 1 then
      buff <- ReceiveSD pdrv 4 ;;
      if (nth 2 buff 0 =? 1) && (nth 3 buff 0 =? 170) then
        i <- poll_loop (Z.to_nat POLL_LIMIT) 0 pdrv ACMD41 (Z.shiftl 1 30) ;;
        if i <? POLL_LIMIT then
          r58 <- SendCommand pdrv CMD58 0 ;;
          if r58 =? 0 then
            buff <- ReceiveSD pdrv 4 ;;
            if Z.land (nth 0 buff 0) 64 =? 0
            then ret CT_SDC2
            else ret (Z.lor CT_SDC2 CT_BLOCK)
          else ret 0
        else ret 0
      else ret 0
    else
      r41 <- SendCommand pdrv ACMD41 0 ;;
      let '(type, cmd) :=
        if r41 <=? 1 then (CT_SDC1, ACMD41) else (CT_MMC, CMD1) in
      i <- poll_loop (Z.to_nat POLL_LIMIT) 0 pdrv cmd 0 ;;
      if i =? POLL_LIMIT then ret 0
      else
        r16 <- SendCommand pdrv CMD16 512 ;;
        if negb (r16 =? 0) then ret 0 else ret type
  else ret 0.

Definition disk_initialize (pdrv : Z) : M Z :=
  EnableSD pdrv ;;
  dummy_clocks 100 pdrv ;;
  type <- classify pdrv ;;
  set_CardType type ;;
  ReleaseSD pdrv ;;
  if type =? 0 then ret STA_NOINIT else ret 0.

(** The address sent with a read or write command: the sector number on a
    block-addressed card, the byte offset otherwise. *)
Definition sd_address (ct sector : Z) : Z :=
  let sect := to_uint sector in
  if Z.land ct CT_BLOCK =? 0 then to_uint (sect * 512) else sect.

(** *** disk_read *)

(** The receive loop with [n] sectors to go: the counter and the buffer on
    exit.  [off] is how far [buff] has been advanced.  What a receive
    leaves in the buffer, also when it fails, is what the transport
    reports. *)
Fixpoint read_loop (n : nat) (i : Z) (pdrv : Z) (buff : list Z) (off : nat)
  : M (Z * list Z) :=
  match n with
  | O => ret (i, buff)
  | S n' =>
      '(data, r) <- ReceiveBlock pdrv 512 ;;
      let buff := store buff off data in
      if r =? 0 then ret (i, buff)
      else read_loop n' (i + 1) pdrv buff (off + 512)
  end.

Definition disk_read (pdrv : Z) (buff : list Z) (sector count : Z)
  : M (DRESULT * list Z) :=
  ct <- get_CardType ;;
  let sect := sd_address ct sector in
  let cmd := if 1 <? count then CMD18 else CMD17 in
  r <- SendCommand pdrv cmd sect ;;
  '(i, buff) <-
    (if r =? 0 then
       '(i, buff) <- read_loop (Z.to_nat count) 0 pdrv buff 0 ;;
       (if command_eqb cmd CMD18
        then SendCommand pdrv CMD12 0 ;; ret tt
        else ret tt) ;;
       ret (i, buff)
     else ret (0, buff)) ;;
  ReleaseSD pdrv ;;
  if negb (i =? count) then ret (RES_ERROR, buff) else ret (RES_OK, buff).

(** *** disk_write *)

Definition sector_at (buff : list Z) (off : nat) : list Z :=
  firstn 512 (skipn off buff).

Fixpoint write_loop (n : nat) (i : Z) (pdrv : Z) (buff : list Z) (off : nat)
  : M Z :=
  match n with
  | O => ret i
  | S n' =>
      r <- SendBlock pdrv (Some (sector_at buff off)) 252 ;;
      if r =? 0 then ret i
      else write_loop n' (i + 1) pdrv buff (off + 512)
  end.

Definition disk_write (pdrv : Z) (buff : list Z) (sector count : Z)
  : M DRESULT :=
  ct <- get_CardType ;;
  let sect := sd_address ct sector in
  i <-
    (if count =? 1 then
       r <- SendCommand pdrv CMD24 sect ;;
       if r =? 0 then
         r <- SendBlock pdrv (Some (sector_at buff 0)) 254 ;;
         if negb (r =? 0) then ret 1 else ret 0
       else ret 0
     else
       (if negb (Z.land ct CT_SDC =? 0)
        then SendCommand pdrv ACMD23 count ;; ret tt
        else ret tt) ;;
       r <- SendCommand pdrv CMD25 sect ;;
       if r =? 0 then
         i <- write_loop (Z.to_nat count) 0 pdrv buff 0 ;;
         r <- SendBlock pdrv None 253 ;;
         if r =? 0 then ret 0 else ret i
       else ret 0) ;;
  ReleaseSD pdrv ;;
  if negb (count =? i) then ret RES_ERROR else ret RES_OK.

(** *** disk_ioctl *)

(** The 22-bit size field of a CSD with bit 5 of byte 0 set. *)
Definition csd_field (csd : list Z) : Z :=
  nth 9 csd 0 + Z.shiftl (nth 8 csd 0) 8 + Z.shiftl (Z.land (nth 7 csd 0) 63) 16.

(** The sector count decoded from a CSD with bit 5 of byte 0 set. *)
Definition csd_sectors_v1 (csd : list Z) : Z :=
  let cs :=
    to_uint (nth 9 csd 0 + Z.shiftl (nth 8 csd 0) 8
             + Z.shiftl (Z.land (nth 7 csd 0) 63) 16 + 1) in
  shl_uint cs 10.

(** The sector count decoded from a CSD with that bit clear. *)
Definition csd_sectors_v0 (csd : list Z) : Z :=
  let n :=
    to_byte (Z.land (nth 5 csd 0) 15 + Z.shiftr (nth 10 csd 0) 7
             + Z.shiftl (Z.land (nth 9 csd 0) 3) 1 + 2) in
  let cs :=
    to_uint (Z.shiftr (nth 9 csd 0) 6 + Z.shiftl (nth 7 csd 0) 2
             + Z.shiftl (Z.land (nth 6 csd 0) 3) 10 + 1) in
  shl_uint cs (n - 9).

(** [buff] is the word the caller's pointer designates; the result carries
    its value on return. *)
Definition disk_ioctl (pdrv ctrl : Z) (buff : Z) : M (DRESULT * Z) :=
  '(res, buff) <-
    (if ctrl =? CTRL_SYNC then
       r <- SelectSD pdrv ;;
       if negb (r =? 0) then ret (RES_OK, buff) else ret (RES_ERROR, buff)
     else if ctrl =? GET_SECTOR_COUNT then
       r <- SendCommand pdrv CMD9 0 ;;
       if r =? 0 then
         '(csd, r) <- ReceiveBlock pdrv 16 ;;
         if negb (r =? 0) then
           if negb (Z.land (nth 0 csd 0) 32 =? 0)
           then ret (RES_OK, csd_sectors_v1 csd)
           else ret (RES_OK, csd_sectors_v0 csd)
         else ret (RES_ERROR, buff)
       else ret (RES_ERROR, buff)
     else if ctrl =? GET_BLOCK_SIZE then ret (RES_OK, 128)
     else ret (RES_PARERR, buff)) ;;
  ReleaseSD pdrv ;;
  ret (res, buff).

End Driver.

Arguments state : clear implicits.
Arguments M : clear implicits.

(** ** The card seen from the bus

    What the claims assume of a card is said on the transport alone, without
    the driver. *)

Section Card.

Context {card : Type} {transport : Transport card}.

(** The bus after [n] one-byte receives. *)
Fixpoint idle_clocked (n : nat) (pdrv : Z) (c : card) : card :=
  match n with
  | O => c
  | S n' => idle_clocked n' pdrv (snd (ReceiveSD_t pdrv 1 c))
  end.

(** The card is sent the same command up to [n] times: the bus after the
    first answer 0, or [None] when none of the [n] answers is 0. *)
Fixpoint ready_within (n : nat) (pdrv : Z) (cmd : command) (arg : Z) (c : card)
  : option card :=
  match n with
  | O => None
  | S n' =>
      let '(r, c') := SendCommand_t pdrv cmd arg c in
      if r =? 0 then Some c' else ready_within n' pdrv cmd arg c'
  end.

(** Whether the card on bus [c], already enabled and clocked, is taken to
    a polling loop, and then with which command, which argument and on
    which bus: ACMD41 with the high-capacity bit after CMD0, CMD8 and the
    voltage echo; ACMD41 or CMD1 with argument 0 after CMD0 and an
    unanswered CMD8. *)
Definition probe (pdrv : Z) (c : card) : option (command * Z * card) :=
  let '(r0, c2) := SendCommand_t pdrv CMD0 0 c in
  if r0 =? 1 then
    let '(r8, c3) := SendCommand_t pdrv CMD8 426 c2 in
    if r8 =? 1 then
      let '(echo, c4) := ReceiveSD_t pdrv 4 c3 in
      if (nth 2 (block 4 echo) 0 =? 1) && (nth 3 (block 4 echo) 0 =? 170)
      then Some (ACMD41, Z.shiftl 1 30, c4)
      else None
    else
      let '(r41, c4) := SendCommand_t pdrv ACMD41 0 c3 in
      Some (if r41 <=? 1 then ACMD41 else CMD1, 0, c4)
  else None.

(** The bus on which [disk_initialize] sends CMD0: chip select enabled and
    a hundred bytes clocked. *)
Definition woken (pdrv : Z) (c : card) : card :=
  idle_clocked 100 pdrv (EnableSD_t pdrv c).

Definition polling_start (pdrv : Z) (c : card) : option (command * Z * card) :=
  probe pdrv (woken pdrv c).

End Card.

(** ** Traces *)

Definition is_release (e : event) : bool :=
  match e with
  | EvRelease _ => true
  | _ => false
  end.

(** How often chip select is released in a trace. *)
Definition releases (t : list event) : nat :=
  List.length (filter is_release t).

(** Chip select is released exactly once in [t], by its last event. *)
Definition released_once (pdrv : Z) (t : list event) : Prop :=
  exists u, t = u ++ [EvRelease pdrv] /\ releases u = 0%nat.

(** The bytes an event shows received from the card. *)
Definition received (e : event) : list Z :=
  match e with
  | EvReceiveBlock _ _ d _ => d
  | _ => []
  end.

(** A one-byte receive, as the clocks before CMD0 are. *)
Definition is_clock (e : event) : bool :=
  match e with
  | EvReceive _ len _ => Nat.eqb len 1
  | _ => false
  end.

(** Whether an event shows a block received; other events count as
    delivered. *)
Definition delivered (e : event) : bool :=
  match e with
  | EvReceiveBlock _ _ _ r => negb (r =? 0)
  | _ => true
  end.

Definition is_data_transfer (e : event) : bool :=
  match e with
  | EvReceiveBlock _ _ _ _ => true
  | EvSendBlock _ (Some _) _ _ => true
  | _ => false
  end.

Definition sends (cmd : command) (e : event) : bool :=
  match e with
  | EvCommand _ c _ _ => command_eqb c cmd
  | _ => false
  end.

(** ** A simulated bus

    Concrete cards for running the driver: a card answers a command by its
    code and argument, and delivers bytes according to the last command it
    was sent.  The bus remembers that command. *)

Record behaviour := mkbehaviour {
  answers : command -> Z -> Z;
  delivers : option command -> list Z;
  block_ok : Z;
  accepts : Z -> Z;
  selects : Z
}.

Definition simulated (slots : Z -> behaviour) : Transport (option command) := {|
  EnableSD_t := fun _ c => c;
  ReleaseSD_t := fun _ c => c;
  SelectSD_t := fun pdrv c => (selects (slots pdrv), c);
  SendCommand_t := fun pdrv cmd arg _ => (answers (slots pdrv) cmd arg, Some cmd);
  ReceiveSD_t := fun pdrv _ c => (delivers (slots pdrv) c, c);
  ReceiveBlock_t := fun pdrv _ c =>
    (delivers (slots pdrv) c, block_ok (slots pdrv), c);
  SendBlock_t := fun pdrv _ token c => (accepts (slots pdrv) token, c)
|}.

(** An empty slot: every answer is 0xFF and every transfer fails. *)
Definition absent : behaviour :=
  {| answers := fun _ _ => 255;
     delivers := fun _ => [];
     block_ok := 0;
     accepts := fun _ => 0;
     selects := 0 |}.

(** A high-capacity SDv2 card whose CSD has bit 5 of byte 0 set and
    bytes 7..9 equal to 0x3F, 0x00, 0x01. *)
Definition sdhc : behaviour :=
  {| answers := fun cmd _ =>
       match cmd with
       | CMD0 | CMD8 => 1
       | _ => 0
       end;
     delivers := fun last =>
       match last with
       | Some CMD8 => [0; 0; 1; 170]
       | Some CMD58 => [192; 255; 128; 0]
       | Some CMD9 => [32; 0; 0; 0; 0; 0; 0; 63; 0; 1; 0; 0; 0; 0; 0; 0]
       | _ => repeat 165 512
       end;
     block_ok := 1;
     accepts := fun _ => 1;
     selects := 1 |}.

(** The same card, never leaving the idle state. *)
Definition stuck : behaviour :=
  {| answers := fun cmd arg =>
       match cmd with
       | ACMD41 => 1
       | _ => answers sdhc cmd arg
       end;
     delivers := delivers sdhc;
     block_ok := 1;
     accepts := fun _ => 1;
     selects := 1 |}.

(** The same card, refusing the stop token of a multi-block write. *)
Definition refuses_stop : behaviour :=
  {| answers := answers sdhc;
     delivers := delivers sdhc;
     block_ok := 1;
     accepts := fun token => if token =? 253 then 0 else 1;
     selects := 1 |}.

(** Slot 0 holds the high-capacity card, every other slot is empty. *)
Definition one_card (pdrv : Z) : behaviour :=
  if pdrv =? 0 then sdhc else absent.

(** A standard-capacity SDv1 card: CMD8 is an illegal command (0x05), and
    the CSD has bit 5 of byte 0 clear, block length 2^9, size field 4095
    and multiplier field 7. *)
Definition sdsc : behaviour :=
  {| answers := fun cmd _ =>
       match cmd with
       | CMD0 => 1
       | CMD8 => 5
       | _ => 0
       end;
     delivers := fun last =>
       match last with
       | Some CMD9 => [0; 0; 0; 0; 0; 9; 3; 255; 0; 195; 128; 0; 0; 0; 0; 0]
       | _ => repeat 60 512
       end;
     block_ok := 1;
     accepts := fun _ => 1;
     selects := 1 |}.

(** An SDv2 card that answers CMD8 without echoing the check pattern. *)
Definition wrong_voltage : behaviour :=
  {| answers := answers sdhc;
     delivers := fun _ => [0; 0; 1; 85];
     block_ok := 1;
     accepts := fun _ => 1;
     selects := 1 |}.

(** An SDv2 card that refuses CMD58. *)
Definition no_ocr : behaviour :=
  {| answers := fun cmd arg =>
       match cmd with
       | CMD58 => 5
       | _ => answers sdhc cmd arg
       end;
     delivers := delivers sdhc;
     block_ok := 1;
     accepts := fun _ => 1;
     selects := 1 |}.

End DiskIO.

(** * muldi3.c

    The routine is one block of assembly over the registers [r0]..[r6],
    [r30] and [r31], each 32 bits wide.  The operands arrive as
    [a = r0 + (r1 << 32)] and [b = r2 + (r3 << 32)]; the product is left in
    [r30] (low word) and [r31] (high word). *)

Module MulDI3.

Definition word (z : Z) : Z := z mod 2 ^ 32.

(** The instructions used.  None of them carries a [wc], so the carry flag
    [addx] adds is the one the routine was entered with; [cmp ... wz]
    followed by [if_z jmp] is a test for zero. *)
Definition NOT (s : Z) : Z := word (Z.lnot s).
Definition ADD (d s : Z) : Z := word (d + s).
Definition ADDX (c : bool) (d s : Z) : Z := word (d + s + Z.b2z c).
Definition SHR (d n : Z) : Z := Z.shiftr d n.
Definition XOR (d s : Z) : Z := Z.lxor d s.
Definition GETQX (d s : Z) : Z := word (d * s).
Definition GETQY (d s : Z) : Z := word ((d * s) / 2 ^ 32).

(** [c] is the carry flag on entry; the result is [(r30, r31)]. *)
Definition __muldi3 (c : bool) (r0 r1 r2 r3 : Z) : Z * Z :=
  let r4 := SHR r1 31 in
  let r5 := SHR r3 31 in
  let r6 := XOR r4 r5 in
  let '(r0, r1) :=
    if r4 =? 0 then (r0, r1)
    else
      let r0 := NOT r0 in
      let r1 := NOT r1 in
      let r0 := ADD r0 1 in
      let r1 := ADDX c r1 0 in
      (r0, r1) in
  let '(r2, r3) :=
    if r5 =? 0 then (r2, r3)
    else
      let r2 := NOT r2 in
      let r3 := NOT r3 in
      let r2 := ADD r2 1 in
      let r3 := ADDX c r3 0 in
      (r2, r3) in
  let r30 := GETQX r0 r2 in
  let r31 := GETQY r0 r2 in
  let r4 := GETQX r1 r2 in
  let r31 := ADD r31 r4 in
  let r4 := GETQX r0 r3 in
  let r31 := ADD r31 r4 in
  if r6 =? 0 then (r30, r31)
  else
    let r30 := NOT r30 in
    let r31 := NOT r31 in
    let r30 := ADD r30 1 in
    let r31 := ADDX c r31 0 in
    (r30, r31).

(** The 64-bit value of a register pair, unsigned and signed. *)
Definition u64 (lo hi : Z) : Z := lo + 2 ^ 32 * hi.

Definition s64 (lo hi : Z) : Z :=
  if hi <? 2 ^ 31 then u64 lo hi else u64 lo hi - 2 ^ 64.

End MulDI3.

(** * Properties of the serial driver *)

Section SerialFacts.

Import SimpleSerial.

(** ** Pin masks *)

Lemma land_pin_mask (x n : Z) :
  0 <= n ->
  Z.land x (Z.shiftl 1 n) = if Z.testbit x n then Z.shiftl 1 n else 0.
Proof.
  intros Hn. rewrite Z.shiftl_1_l.
  apply Z.bits_inj'. intros m Hm.
  rewrite Z.land_spec, Z.pow2_bits_eqb by assumption.
  destruct (Z.eqb_spec n m) as [->|Hne].
  - destruct (Z.testbit x m) eqn:E.
    + now rewrite Z.pow2_bits_eqb, Z.eqb_refl by assumption.
    + now rewrite Z.bits_0.
  - rewrite andb_false_r.
    destruct (Z.testbit x n).
    + rewrite Z.pow2_bits_eqb by assumption.
      symmetry. now apply Z.eqb_neq.
    + now rewrite Z.bits_0.
Qed.

Lemma pin_mask_pos (n : Z) : 0 <= n -> 0 < Z.shiftl 1 n.
Proof. intros Hn. rewrite Z.shiftl_1_l. now apply Z.pow_pos_nonneg. Qed.

Lemma pin_is_low (x n : Z) :
  0 <= n -> (Z.land x (Z.shiftl 1 n) =? 0) = negb (Z.testbit x n).
Proof.
  intros Hn. rewrite land_pin_mask by assumption.
  pose proof (pin_mask_pos n Hn).
  destruct (Z.testbit x n); simpl; [apply Z.eqb_neq; lia | reflexivity].
Qed.

Lemma pin_is_high (x n : Z) :
  0 <= n -> (Z.land x (Z.shiftl 1 n) =? Z.shiftl 1 n) = Z.testbit x n.
Proof.
  intros Hn. rewrite land_pin_mask by assumption.
  pose proof (pin_mask_pos n Hn).
  destruct (Z.testbit x n); [apply Z.eqb_refl | apply Z.eqb_neq; lia].
Qed.

Lemma drive_high (outa n : Z) :
  0 <= n -> Z.testbit (Z.lor outa (Z.shiftl 1 n)) n = true.
Proof.
  intros Hn. rewrite Z.lor_spec, Z.shiftl_1_l, Z.pow2_bits_true by assumption.
  apply orb_true_r.
Qed.

Lemma drive_low (outa n : Z) :
  0 <= n -> Z.testbit (Z.land outa (Z.lnot (Z.shiftl 1 n))) n = false.
Proof.
  intros Hn.
  rewrite Z.land_spec, Z.lnot_spec, Z.shiftl_1_l, Z.pow2_bits_true by assumption.
  apply andb_false_r.
Qed.

(** ** The transmitted frame *)

(** During the [k]-th period of the loop the pin carries bit [k] of
    [value]. *)
Lemma putbyte_loop_levels (n : nat) (txpin : Z) :
  0 <= txpin ->
  forall value outa,
    levels txpin (fst (putbyte_loop n (Z.shiftl 1 txpin) value outa))
    = map (fun k => Z.testbit value (Z.of_nat k)) (seq 0 n).
Proof.
  intros Hpin. induction n as [|n IH]; intros value outa; [reflexivity|].
  cbn [putbyte_loop].
  destruct (putbyte_loop n _ (Z.shiftr value 1) _) as [wave final] eqn:E.
  cbn [fst levels map seq]. f_equal.
  - change (Z.land value 1) with (Z.land value (Z.shiftl 1 0)).
    rewrite pin_is_low by lia. change (Z.of_nat 0) with 0.
    destruct (Z.testbit value 0); cbn [negb];
      [now apply drive_high | now apply drive_low].
  - specialize (IH (Z.shiftr value 1)
                   (if Z.land value 1 =? 0
                    then Z.land outa (Z.lnot (Z.shiftl 1 txpin))
                    else Z.lor outa (Z.shiftl 1 txpin))).
    rewrite E in IH. cbn [fst] in IH. unfold levels in IH. rewrite IH.
    rewrite <- seq_shift, map_map. apply map_ext. intros k.
    rewrite Z.shiftr_spec by lia. f_equal. lia.
Qed.

Lemma below_256 (P : Z -> bool) :
  forallb P (map Z.of_nat (seq 0 256)) = true ->
  forall b, 0 <= b < 256 -> P b = true.
Proof.
  intros H b Hb. rewrite forallb_forall in H. apply H.
  apply in_map_iff. exists (Z.to_nat b). split; [lia|].
  apply in_seq. lia.
Qed.

Lemma frame_of_byte (b : Z) : 0 <= b < 256 -> frame_ok b = true.
Proof. apply below_256. vm_compute. reflexivity. Qed.

(** ** The receive loop *)

Lemma getbyte_loop_levels (rxpin x0 x1 x2 x3 x4 x5 x6 x7 : Z) (rest : list Z) :
  0 <= rxpin ->
  getbyte_loop 8 (Z.shiftl 1 rxpin) 0 (x0 :: x1 :: x2 :: x3 :: x4 :: x5 :: x6 :: x7 :: rest)
  = Some (bits_value (levels rxpin [x0; x1; x2; x3; x4; x5; x6; x7])).
Proof.
  intros Hpin. cbn [getbyte_loop levels map].
  rewrite !pin_is_low by assumption.
  destruct (Z.testbit x0 rxpin), (Z.testbit x1 rxpin), (Z.testbit x2 rxpin),
    (Z.testbit x3 rxpin), (Z.testbit x4 rxpin), (Z.testbit x5 rxpin),
    (Z.testbit x6 rxpin), (Z.testbit x7 rxpin); reflexivity.
Qed.

Lemma looped_back_levels (txpin rxpin : Z) (wave ina : list Z) :
  looped_back txpin rxpin wave ina -> levels rxpin ina = levels txpin wave.
Proof.
  induction 1 as [|o i wave ina Hoi _ IH]; [reflexivity|].
  cbn [levels map]. f_equal; [exact Hoi | exact IH].
Qed.

(** ** Round trip *)

(** C1.  A byte [b] in 0..255 sent by [_serial_putbyte] on a pin wired to
    the receive pin is returned by [_serial_getbyte]: the frame
    [(b | 0x100) << 1] goes out least significant bit first after one idle
    period, the receiver finds the start bit, shifts the next eight
    samples in from the top and sees the line high again. *)
Theorem putbyte_getbyte_roundtrip
    (IONONBLOCK b txpin rxpin : Z) (tx rx : FILE) (p q : pins) (ina : list Z) :
  0 <= b < 256 ->
  0 <= txpin ->
  0 <= rxpin ->
  drvarg1 tx = Z.shiftl 1 txpin ->
  drvarg0 rx = Z.shiftl 1 rxpin ->
  Z.land (_flag rx) IONONBLOCK = 0 ->
  looped_back txpin rxpin (snd (_serial_putbyte b tx p)) ina ->
  fst (fst (_serial_putbyte b tx p)) = b
  /\ fst (_serial_getbyte IONONBLOCK rx q ina) = Some b.
Proof.
  intros Hb Htx Hrx Etx Erx Hflag.
  unfold _serial_putbyte. rewrite Etx.
  pose proof (putbyte_loop_levels 10 txpin Htx (frame b)
                (Z.lor (_OUTA p) (Z.shiftl 1 txpin))) as Hwave.
  fold (frame b).
  destruct (putbyte_loop 10 _ (frame b) _) as [wave final].
  cbn [fst snd] in *. intros Hloop. split; [reflexivity|].
  apply looped_back_levels in Hloop.
  cbn [levels map] in Hloop. fold (levels txpin wave) in Hloop.
  rewrite Hwave, drive_high in Hloop by assumption.
  pose proof (frame_of_byte b Hb) as Hframe. unfold frame_ok in Hframe.
  apply andb_prop in Hframe. destruct Hframe as [Hframe Hstop].
  apply andb_prop in Hframe. destruct Hframe as [Hstart Hdata].
  apply negb_true_iff in Hstart. apply Z.eqb_eq in Hdata.
  set (bit := fun k : nat => Z.testbit (frame b) (Z.of_nat k)) in *.
  change (Z.testbit (frame b) 0) with (bit 0%nat) in Hstart.
  change (Z.testbit (frame b) 9) with (bit 9%nat) in Hstop.
  cbn [seq map] in Hloop, Hdata.
  destruct ina as [|i0 [|i1 [|i2 [|i3 [|i4 [|i5 [|i6 [|i7 [|i8 [|i9 [|i10 [|]]]]]]]]]]]];
    try discriminate Hloop.
  cbn [levels map] in Hloop.
  injection Hloop as L0 L1 L2 L3 L4 L5 L6 L7 L8 L9 L10.
  unfold _serial_getbyte. rewrite Hflag, Erx. cbn [Z.eqb negb fst].
  cbn [waitpeq]. rewrite !pin_is_low by assumption.
  rewrite L0, L1, Hstart. cbn [negb fst skipn].
  rewrite getbyte_loop_levels by assumption.
  cbn [levels map waitpeq]. rewrite !pin_is_high by assumption.
  rewrite L2, L3, L4, L5, L6, L7, L8, L9, L10, Hstop, Hdata.
  destruct (bit 8%nat); reflexivity.
Qed.

(** The byte 0xA5 crosses a loop from pin 30 to pin 31. *)
Lemma putbyte_getbyte_roundtrip_witness :
  fst (_serial_getbyte 4
         (mkFILE (Z.shiftl 1 31) (Z.shiftl 1 30) 115200 694 0 0)
         (mkpins 0 0)
         (map (fun o => Z.shiftl (Z.shiftr o 30) 31)
            (snd (_serial_putbyte 165
                    (mkFILE (Z.shiftl 1 31) (Z.shiftl 1 30) 115200 694 0 0)
                    (mkpins 0 0)))))
  = Some 165.
Proof.
  apply (putbyte_getbyte_roundtrip 4 165 30 31
           (mkFILE (Z.shiftl 1 31) (Z.shiftl 1 30) 115200 694 0 0)
           (mkFILE (Z.shiftl 1 31) (Z.shiftl 1 30) 115200 694 0 0)
           (mkpins 0 0) (mkpins 0 0)).
  - lia.
  - lia.
  - lia.
  - reflexivity.
  - reflexivity.
  - reflexivity.
  - vm_compute. repeat constructor.
Defined.

(** ** Opening a channel *)

Lemma atoi_digits_stop (r f : string) (acc : Z) :
  atoi_digits acc (f ++ String ","%char r) = atoi_digits acc f.
Proof.
  revert acc. induction f as [|c f IH]; intros acc; [reflexivity|].
  cbn [String.append atoi_digits]. destruct (digit_of c); [apply IH | reflexivity].
Qed.

Lemma atoi_signed_stop (r f : string) :
  atoi_signed (f ++ String ","%char r) = atoi_signed f.
Proof.
  destruct f as [|c f]; [reflexivity|].
  cbn [String.append]. unfold atoi_signed.
  destruct c as [[] [] [] [] [] [] [] []];
    try apply (atoi_digits_stop r (String _ f) 0);
    try (f_equal; apply atoi_digits_stop);
    apply atoi_digits_stop.
Qed.

(** [atoi] reads a field: it never looks past the comma that ends it. *)
Lemma atoi_stop (r f : string) :
  atoi (f ++ String ","%char r) = atoi f.
Proof.
  induction f as [|c f IH]; [reflexivity|].
  cbn [String.append atoi]. destruct (isspace c); [exact IH|].
  apply (atoi_signed_stop r (String c f)).
Qed.

Lemma scan_field_stop (r f : string) :
  is_field f = true ->
  scan_field (f ++ String ","%char r) = String ","%char r.
Proof.
  induction f as [|c f IH]; intros Hf; [reflexivity|].
  cbn [is_field] in Hf. apply andb_prop in Hf. destruct Hf as [Hc Hf].
  cbn [String.append scan_field]. rewrite Hc. now apply IH.
Qed.

Lemma scan_field_end (f : string) :
  is_field f = true -> scan_field f = EmptyString.
Proof.
  induction f as [|c f IH]; intros Hf; [reflexivity|].
  cbn [is_field] in Hf. apply andb_prop in Hf. destruct Hf as [Hc Hf].
  cbn [scan_field]. rewrite Hc. now apply IH.
Qed.

Lemma deref_field (f r : string) :
  is_field f = true -> nonzero (deref (f ++ String ","%char r)) = true.
Proof.
  destruct f as [|c f]; intros Hf; [reflexivity|].
  cbn [is_field] in Hf. cbn [String.append deref].
  apply andb_prop in Hf. destruct Hf as [Hc _].
  apply andb_prop in Hc. now destruct Hc.
Qed.

(** C4, as the code has it.  Fields are read left to right with [atoi].
    A field that is missing at the end of the string, like every field of
    a null or empty string, keeps its compiled-in default; a field that is
    present but empty is read as whatever [atoi] makes of it, which is 0.
    The call reports success for every string. *)
Theorem serial_fopen_fields
    (TX RX BAUD IODEV LOCK : Z) (fp : FILE) (f1 f2 rest : string) :
  is_field f1 = true ->
  is_field f2 = true ->
  let opened := _serial_fopen TX RX BAUD IODEV LOCK atoi fp in
  snd (opened None) = (RX, TX, BAUD)
  /\ snd (opened (Some EmptyString)) = (RX, TX, BAUD)
  /\ (f1 <> EmptyString ->
      snd (opened (Some f1)) = (RX, TX, to_uint (atoi f1)))
  /\ snd (opened (Some (f1 ++ "," ++ f2)%string))
     = (to_uint (atoi f2), TX, to_uint (atoi f1))
  /\ snd (opened (Some (f1 ++ "," ++ f2 ++ "," ++ rest)%string))
     = (to_uint (atoi f2), to_uint (atoi rest), to_uint (atoi f1))
  /\ (forall name,
        fst (fst (opened name)) = 0
        /\ (drvarg0 (snd (fst (opened name))),
            drvarg1 (snd (fst (opened name))),
            drvarg2 (snd (fst (opened name)))) = snd (opened name)).
Proof.
  intros H1 H2 opened. subst opened.
  change ("," ++ f2)%string with (String ","%char f2).
  change ("," ++ f2 ++ "," ++ rest)%string
    with (String ","%char (f2 ++ String ","%char rest)).
  repeat split.
  - intros Hne. unfold _serial_fopen.
    destruct f1 as [|c f]; [congruence|].
    cbn [is_field] in H1. apply andb_prop in H1. destruct H1 as [Hc Hf].
    pose proof Hc as Hc'. apply andb_prop in Hc'. destruct Hc' as [Hnz _].
    cbn [deref]. rewrite Hnz.
    rewrite scan_field_end by (cbn [is_field]; now rewrite Hc, Hf).
    reflexivity.
  - unfold _serial_fopen.
    rewrite deref_field, scan_field_stop by assumption.
    cbn [deref advance]. change (nonzero ","%char) with true. cbv iota.
    rewrite scan_field_end, atoi_stop by assumption. reflexivity.
  - unfold _serial_fopen.
    rewrite deref_field, scan_field_stop by assumption.
    cbn [deref advance]. change (nonzero ","%char) with true. cbv iota.
    rewrite scan_field_stop, !atoi_stop by assumption. reflexivity.
  - unfold _serial_fopen. destruct name as [name|]; [|reflexivity].
    destruct (nonzero (deref name)); [|reflexivity].
    destruct (nonzero (deref (scan_field name))); [|reflexivity].
    destruct (nonzero (deref (scan_field (advance (scan_field name)))));
      reflexivity.
  - unfold _serial_fopen. destruct name as [name|]; [|reflexivity].
    destruct (nonzero (deref name)); [|reflexivity].
    destruct (nonzero (deref (scan_field name))); [|reflexivity].
    destruct (nonzero (deref (scan_field (advance (scan_field name)))));
      reflexivity.
Qed.

(** The string [9600,10,11] on a board whose defaults are pins 62 and 63
    at 230400 baud. *)
Lemma serial_fopen_fields_witness :
  snd (_serial_fopen 62 63 230400 64 1 atoi (mkFILE 0 0 0 0 0 0)
         (Some "9600,10,11"%string))
  = (10, 11, 9600).
Proof.
  apply (serial_fopen_fields 62 63 230400 64 1 (mkFILE 0 0 0 0 0 0)
           "9600"%string "10"%string "11"%string); reflexivity.
Defined.

(** C4, as the spec has it, fails: in [,5,6] the baud field is unset, and
    the baud rate is 0 where the default is 230400. *)
Lemma serial_fopen_unset_baud_is_zero :
  let opened :=
    _serial_fopen 62 63 230400 64 1 atoi (mkFILE 0 0 0 0 0 0)
      (Some ",5,6"%string) in
  snd opened = (5, 6, 0)
  /\ drvarg2 (snd (fst opened)) <> 230400.
Proof. split; [reflexivity | discriminate]. Qed.

(** ** More on the bit-banged routines *)

Lemma other_pin_high (outa n k : Z) :
  0 <= n -> 0 <= k -> k <> n ->
  Z.testbit (Z.lor outa (Z.shiftl 1 n)) k = Z.testbit outa k.
Proof.
  intros Hn Hk Hne.
  rewrite Z.lor_spec, Z.shiftl_1_l, Z.pow2_bits_false by lia.
  apply orb_false_r.
Qed.

Lemma other_pin_low (outa n k : Z) :
  0 <= n -> 0 <= k -> k <> n ->
  Z.testbit (Z.land outa (Z.lnot (Z.shiftl 1 n))) k = Z.testbit outa k.
Proof.
  intros Hn Hk Hne.
  rewrite Z.land_spec, Z.lnot_spec, Z.shiftl_1_l, Z.pow2_bits_false by lia.
  apply andb_true_r.
Qed.

Lemma last_cons (A : Type) (l : list A) (x d : A) :
  last (x :: l) d = last l x.
Proof.
  revert x d. induction l as [|y l IH]; intros x d; [reflexivity|].
  change (last (x :: y :: l) d) with (last (y :: l) d).
  now rewrite (IH y d), (IH y x).
Qed.

(** The loop writes one pin only, and leaves [_OUTA] as it was in the last
    period. *)
Lemma putbyte_loop_frame (n : nat) (txpin k : Z) :
  0 <= txpin -> 0 <= k -> k <> txpin ->
  forall value outa,
    let '(wave, final) := putbyte_loop n (Z.shiftl 1 txpin) value outa in
    Forall (fun o => Z.testbit o k = Z.testbit outa k) wave
    /\ final = last wave outa
    /\ List.length wave = n.
Proof.
  intros Htx Hk Hne. induction n as [|n IH]; intros value outa.
  - cbn. auto.
  - cbn [putbyte_loop].
    set (outa' := if Z.land value 1 =? 0
                  then Z.land outa (Z.lnot (Z.shiftl 1 txpin))
                  else Z.lor outa (Z.shiftl 1 txpin)).
    assert (Hsame : Z.testbit outa' k = Z.testbit outa k).
    { subst outa'. destruct (Z.land value 1 =? 0);
        [now apply other_pin_low | now apply other_pin_high]. }
    specialize (IH (Z.shiftr value 1) outa').
    destruct (putbyte_loop n _ _ outa') as [wave final].
    destruct IH as (Hall & Hlast & Hlen). repeat split.
    + constructor; [exact Hsame|].
      eapply Forall_impl; [|exact Hall]. cbn. intros o Ho. congruence.
    + now rewrite last_cons.
    + cbn [List.length]. now rewrite Hlen.
Qed.

(** X2.  [_serial_putbyte] returns its argument.  The line carries the
    idle level set on entry and then the ten levels of the frame, one
    written after each of the ten waits of the loop; the last of them, the
    stop level, is what [_OUTA] holds on return, with the pin high and an
    output whatever was sent.  No pin but its own is written: in every
    period, and on exit, every other bit of [_OUTA] and [_DIRA] is as it
    was on entry. *)
Theorem putbyte_touches_one_pin
    (c txpin k : Z) (fp : FILE) (p : pins) :
  0 <= txpin ->
  0 <= k ->
  drvarg1 fp = Z.shiftl 1 txpin ->
  let '(r, p', wave) := _serial_putbyte c fp p in
  let idle := Z.lor (_OUTA p) (Z.shiftl 1 txpin) in
  r = c
  /\ (exists frame_levels,
        wave = idle :: frame_levels
        /\ List.length frame_levels = 10%nat
        /\ _OUTA p' = last frame_levels idle)
  /\ Z.testbit (_OUTA p') txpin = true
  /\ Z.testbit (_DIRA p') txpin = true
  /\ (k <> txpin ->
      Forall (fun o => Z.testbit o k = Z.testbit (_OUTA p) k) wave
      /\ Z.testbit (_OUTA p') k = Z.testbit (_OUTA p) k
      /\ Z.testbit (_DIRA p') k = Z.testbit (_DIRA p) k).
Proof.
  intros Htx Hk Emask. unfold _serial_putbyte. rewrite Emask.
  pose proof (putbyte_loop_levels 10 txpin Htx (Z.shiftl (Z.lor c 256) 1)
                (Z.lor (_OUTA p) (Z.shiftl 1 txpin))) as Hlev.
  assert (Hstop : Z.testbit (Z.shiftl (Z.lor c 256) 1) 9 = true).
  { rewrite Z.shiftl_spec by lia. rewrite Z.lor_spec.
    change (Z.testbit 256 (9 - 1)) with true. apply orb_true_r. }
  assert (Hframe : forall k', 0 <= k' -> k' <> txpin ->
    let '(wave, final) :=
      putbyte_loop 10 (Z.shiftl 1 txpin) (Z.shiftl (Z.lor c 256) 1)
        (Z.lor (_OUTA p) (Z.shiftl 1 txpin)) in
    Forall (fun o => Z.testbit o k'
                     = Z.testbit (Z.lor (_OUTA p) (Z.shiftl 1 txpin)) k') wave
    /\ final = last wave (Z.lor (_OUTA p) (Z.shiftl 1 txpin))
    /\ List.length wave = 10%nat).
  { intros k' Hk' Hne. now apply putbyte_loop_frame. }
  destruct (putbyte_loop 10 _ _ _) as [wave final]. cbn [fst] in Hlev.
  cbn [_OUTA _DIRA]. cbv zeta.
  split; [reflexivity|]. split; [|split; [|split; [|intros H; repeat split]]].
  - exists wave.
    destruct (Hframe (txpin + 1) ltac:(lia) ltac:(lia)) as (_ & Hlast & Hlen).
    now repeat split.
  - destruct (Hframe (txpin + 1) ltac:(lia) ltac:(lia)) as (_ & -> & Hlen).
    cbn [seq map] in Hlev. unfold levels in Hlev.
    destruct wave as [|w0 [|w1 [|w2 [|w3 [|w4 [|w5 [|w6 [|w7 [|w8 [|w9 [|]]]]]]]]]]];
      try discriminate Hlen.
    cbn [map] in Hlev. cbn [last].
    injection Hlev as _ _ _ _ _ _ _ _ _ H9.
    change (Z.of_nat 9) with 9 in H9. now rewrite H9.
  - now apply drive_high.
  - destruct (Hframe k Hk H) as (Hall & _ & _).
    constructor; [now apply other_pin_high|].
    eapply Forall_impl; [|exact Hall]. cbn. intros o ->.
    now apply other_pin_high.
  - destruct (Hframe k Hk H) as (Hall & -> & _).
    destruct wave as [|w0 wave']; [now apply other_pin_high|].
    rewrite Forall_forall in Hall.
    rewrite (Hall (last (w0 :: wave') (Z.lor (_OUTA p) (Z.shiftl 1 txpin)))).
    + now apply other_pin_high.
    + destruct (@exists_last _ (w0 :: wave') ltac:(discriminate))
        as (l' & a & E).
      rewrite E, last_last. apply in_or_app. right. now left.
  - now apply other_pin_high.
Qed.

(** Only the low eight bits of the argument reach the frame. *)
Lemma frame_low_bits (c : Z) (k : nat) :
  (k < 10)%nat ->
  Z.testbit (frame c) (Z.of_nat k) = Z.testbit (frame (c mod 256)) (Z.of_nat k).
Proof.
  intros Hk. unfold frame. destruct k as [|k].
  - now rewrite !Z.shiftl_spec_low by (cbn; lia).
  - rewrite !Z.shiftl_spec, !Z.lor_spec by lia.
    destruct (Z.eq_dec (Z.of_nat (S k) - 1) 8) as [->|Hne].
    + now rewrite !orb_true_r.
    + f_equal. change 256 with (2 ^ 8).
      symmetry. apply Z.mod_pow2_bits_low. lia.
Qed.

Lemma frame_bits (c : Z) :
  Z.testbit (frame c) 0 = false
  /\ bits_value (map (fun k => Z.testbit (frame c) (Z.of_nat k)) (seq 1 8))
     = c mod 256
  /\ Z.testbit (frame c) 9 = true.
Proof.
  assert (Hb : 0 <= c mod 256 < 256) by (apply Z.mod_pos_bound; lia).
  pose proof (frame_of_byte (c mod 256) Hb) as Hframe. unfold frame_ok in Hframe.
  apply andb_prop in Hframe. destruct Hframe as [Hframe Hstop].
  apply andb_prop in Hframe. destruct Hframe as [Hstart Hdata].
  apply negb_true_iff in Hstart. apply Z.eqb_eq in Hdata.
  repeat split.
  - pose proof (frame_low_bits c 0 ltac:(lia)) as H0.
    change (Z.of_nat 0) with 0 in H0. now rewrite H0.
  - etransitivity; [|exact Hdata]. f_equal. apply map_ext_in.
    intros k Hk. apply in_seq in Hk. apply frame_low_bits. lia.
  - pose proof (frame_low_bits c 9 ltac:(lia)) as H9.
    change (Z.of_nat 9) with 9 in H9. now rewrite H9.
Qed.

Lemma waitpeq_idle (rxpin : Z) (idle rest : list Z) :
  0 <= rxpin ->
  Forall (fun i => Z.testbit i rxpin = true) idle ->
  waitpeq 0 (Z.shiftl 1 rxpin) (idle ++ rest) = waitpeq 0 (Z.shiftl 1 rxpin) rest.
Proof.
  intros Hpin Hidle. induction Hidle as [|i idle Hi _ IH]; [reflexivity|].
  cbn [app waitpeq]. now rewrite pin_is_low, Hi by assumption.
Qed.

(** X1.  Whatever [int] is passed to [_serial_putbyte], it is the low
    eight bits that arrive: a blocking [_serial_getbyte] on the wired pin,
    entered any number of idle bit periods before the frame, returns
    [c mod 256]. *)
Theorem putbyte_getbyte_low_byte
    (IONONBLOCK c txpin rxpin : Z) (tx rx : FILE) (p q : pins)
    (idle ina : list Z) :
  0 <= c < 2 ^ 30 ->
  0 <= txpin ->
  0 <= rxpin ->
  drvarg1 tx = Z.shiftl 1 txpin ->
  drvarg0 rx = Z.shiftl 1 rxpin ->
  Z.land (_flag rx) IONONBLOCK = 0 ->
  Forall (fun i => Z.testbit i rxpin = true) idle ->
  looped_back txpin rxpin (snd (_serial_putbyte c tx p)) ina ->
  fst (_serial_getbyte IONONBLOCK rx q (idle ++ ina)) = Some (c mod 256).
Proof.
  intros Hc Htx Hrx Etx Erx Hflag Hidle.
  unfold _serial_putbyte. rewrite Etx.
  pose proof (putbyte_loop_levels 10 txpin Htx (frame c)
                (Z.lor (_OUTA p) (Z.shiftl 1 txpin))) as Hwave.
  fold (frame c).
  destruct (putbyte_loop 10 _ (frame c) _) as [wave final].
  cbn [fst snd] in *. intros Hloop.
  apply looped_back_levels in Hloop.
  cbn [levels map] in Hloop. fold (levels txpin wave) in Hloop.
  rewrite Hwave, drive_high in Hloop by assumption.
  destruct (frame_bits c) as (Hstart & Hdata & Hstop).
  set (bit := fun k : nat => Z.testbit (frame c) (Z.of_nat k)) in *.
  change (Z.testbit (frame c) 0) with (bit 0%nat) in Hstart.
  change (Z.testbit (frame c) 9) with (bit 9%nat) in Hstop.
  cbn [seq map] in Hloop, Hdata.
  destruct ina as [|i0 [|i1 [|i2 [|i3 [|i4 [|i5 [|i6 [|i7 [|i8 [|i9 [|i10 [|]]]]]]]]]]]];
    try discriminate Hloop.
  cbn [levels map] in Hloop.
  injection Hloop as L0 L1 L2 L3 L4 L5 L6 L7 L8 L9 L10.
  unfold _serial_getbyte. rewrite Hflag, Erx. cbn [Z.eqb negb fst].
  rewrite waitpeq_idle by assumption.
  cbn [waitpeq]. rewrite !pin_is_low by assumption.
  rewrite L0, L1, Hstart. cbn [negb fst skipn].
  rewrite getbyte_loop_levels by assumption.
  cbn [levels map waitpeq]. rewrite !pin_is_high by assumption.
  rewrite L2, L3, L4, L5, L6, L7, L8, L9, L10, Hstop, Hdata.
  destruct (bit 8%nat); reflexivity.
Qed.

(** ** What the receiver returns *)

Lemma lor_below (n a b : Z) :
  0 <= n -> 0 <= a < 2 ^ n -> 0 <= b < 2 ^ n -> 0 <= Z.lor a b < 2 ^ n.
Proof.
  intros Hn Ha Hb. split; [apply Z.lor_nonneg; lia|].
  destruct (Z.eq_dec (Z.lor a b) 0) as [->|Hnz]; [lia|].
  assert (0 < Z.lor a b) by (pose proof (proj2 (Z.lor_nonneg a b)); lia).
  apply Z.log2_lt_pow2; [assumption|].
  rewrite Z.log2_lor by lia.
  destruct (Z.eq_dec a 0) as [->|Hna], (Z.eq_dec b 0) as [->|Hnb];
    try (cbn in Hnz; congruence).
  - rewrite Z.max_r by (change (Z.log2 0) with 0; apply Z.log2_nonneg).
    apply Z.log2_lt_pow2; lia.
  - rewrite Z.max_l by (change (Z.log2 0) with 0; apply Z.log2_nonneg).
    apply Z.log2_lt_pow2; lia.
  - apply Z.max_lub_lt; apply Z.log2_lt_pow2; lia.
Qed.

Lemma getbyte_loop_range (n : nat) (rxmask : Z) :
  forall value ina v,
    0 <= value < 256 ->
    getbyte_loop n rxmask value ina = Some v ->
    0 <= v < 256.
Proof.
  induction n as [|n IH]; intros value ina v Hvalue Hloop.
  - cbn in Hloop. now inversion Hloop; subst.
  - cbn [getbyte_loop] in Hloop. destruct ina as [|x rest]; [discriminate|].
    refine (IH _ _ _ _ Hloop).
    change 256 with (2 ^ 8). apply lor_below; [lia| |].
    + destruct (Z.land x rxmask =? 0); cbn; lia.
    + rewrite Z.shiftr_div_pow2 by lia. change (2 ^ 1) with 2.
      split; [apply Z.div_pos; lia|].
      apply Z.div_lt_upper_bound; lia.
Qed.

(** X3.  What [_serial_getbyte] returns is a byte, 0..255, or -1; and -1
    only in non-blocking mode, with the line high at the call.  So the
    no-data value is never a received byte, for any input and any mask. *)
Theorem getbyte_byte_or_no_data
    (IONONBLOCK v : Z) (fp : FILE) (p : pins) (ina : list Z) :
  fst (_serial_getbyte IONONBLOCK fp p ina) = Some v ->
  0 <= v < 256
  \/ (v = -1
      /\ Z.land (_flag fp) IONONBLOCK <> 0
      /\ exists x rest, ina = x :: rest /\ Z.land x (drvarg0 fp) <> 0).
Proof.
  unfold _serial_getbyte.
  assert (Hreceive : forall from_start,
    match getbyte_loop 8 (drvarg0 fp) 0 (skipn 1 from_start) with
    | Some value =>
        match waitpeq (drvarg0 fp) (drvarg0 fp) (skipn 8 from_start) with
        | Some _ => Some value
        | None => None
        end
    | None => None
    end = Some v -> 0 <= v < 256).
  { intros from_start.
    destruct (getbyte_loop 8 _ 0 _) as [value|] eqn:E; [|discriminate].
    destruct (waitpeq _ _ _); [|discriminate].
    intros Hv. inversion Hv; subst.
    apply (getbyte_loop_range 8 (drvarg0 fp) 0 (skipn 1 from_start) v);
      [lia | exact E]. }
  destruct (Z.eqb_spec (Z.land (_flag fp) IONONBLOCK) 0) as [Hblock|Hnon];
    cbn [negb].
  - destruct (waitpeq 0 _ ina) as [from_start|]; cbn [fst]; [|discriminate].
    intros Hv. left. now apply (Hreceive from_start).
  - destruct ina as [|x rest]; cbn [fst]; [discriminate|].
    destruct (Z.eqb_spec (Z.land x (drvarg0 fp)) 0) as [Hlow|Hhigh];
      cbn [negb fst].
    + intros Hv. left. now apply (Hreceive (x :: rest)).
    + intros Hv. inversion Hv; subst. right. repeat split; try assumption.
      now exists x, rest.
Qed.

Lemma waitpeq_never (rxpin : Z) (ina : list Z) :
  0 <= rxpin ->
  Forall (fun i => Z.testbit i rxpin = true) ina ->
  waitpeq 0 (Z.shiftl 1 rxpin) ina = None.
Proof.
  intros Hpin Hidle. induction Hidle as [|i ina Hi _ IH]; [reflexivity|].
  cbn [waitpeq]. now rewrite pin_is_low, Hi by assumption.
Qed.

(** X4.  There is no timeout: on a line that stays high a blocking
    [_serial_getbyte] has not returned however long the line is watched,
    while a non-blocking one returns -1 in the first period.  Either way
    the routine has only turned its own pin into an input. *)
Theorem getbyte_without_start_bit
    (IONONBLOCK rxpin k x : Z) (fp : FILE) (p : pins) (ina : list Z) :
  0 <= rxpin ->
  0 <= k ->
  drvarg0 fp = Z.shiftl 1 rxpin ->
  Forall (fun i => Z.testbit i rxpin = true) (x :: ina) ->
  fst (_serial_getbyte IONONBLOCK fp p (x :: ina))
  = (if Z.land (_flag fp) IONONBLOCK =? 0 then None else Some (-1))
  /\ _OUTA (snd (_serial_getbyte IONONBLOCK fp p (x :: ina))) = _OUTA p
  /\ Z.testbit (_DIRA (snd (_serial_getbyte IONONBLOCK fp p (x :: ina)))) k
     = (if k =? rxpin then false else Z.testbit (_DIRA p) k).
Proof.
  intros Hpin Hk Emask Hidle. unfold _serial_getbyte. rewrite Emask.
  rewrite (waitpeq_never rxpin (x :: ina) Hpin Hidle).
  rewrite pin_is_low by assumption.
  inversion Hidle as [|? ? Hx _]; subst. rewrite Hx. cbn [negb].
  assert (Hdir : Z.testbit (Z.land (_DIRA p) (Z.lnot (Z.shiftl 1 rxpin))) k
                 = (if k =? rxpin then false else Z.testbit (_DIRA p) k)).
  { destruct (Z.eqb_spec k rxpin) as [->|Hne];
      [now apply drive_low | now apply other_pin_low]. }
  destruct (Z.land (_flag fp) IONONBLOCK =? 0); cbn [negb fst snd _OUTA _DIRA];
    repeat split; exact Hdir.
Qed.

(** X5.  The exit hook drives the transmit pin high and nothing else, and
    running it twice is running it once. *)
Theorem exit_hook_sets_one_pin (_txpin k : Z) (p : pins) :
  0 <= _txpin ->
  0 <= k ->
  let p' := SimpleSerialExit _txpin p in
  Z.testbit (_OUTA p') k = (if k =? _txpin then true else Z.testbit (_OUTA p) k)
  /\ Z.testbit (_DIRA p') k
     = (if k =? _txpin then true else Z.testbit (_DIRA p) k)
  /\ SimpleSerialExit _txpin p' = p'.
Proof.
  intros Htx Hk p'. subst p'. unfold SimpleSerialExit. cbn [_OUTA _DIRA].
  repeat split.
  - destruct (Z.eqb_spec k _txpin) as [->|Hne];
      [now apply drive_high | now apply other_pin_high].
  - destruct (Z.eqb_spec k _txpin) as [->|Hne];
      [now apply drive_high | now apply other_pin_high].
  - f_equal; rewrite <- Z.lor_assoc, Z.lor_diag; reflexivity.
Qed.

(** ** Runs of the serial routines *)

(** 0x1A5 is sent from pin 30; the receiver on pin 31 was entered three
    idle periods early and returns 0xA5. *)
Lemma putbyte_getbyte_low_byte_witness :
  fst (_serial_getbyte 4
         (mkFILE (Z.shiftl 1 31) (Z.shiftl 1 30) 115200 694 0 0)
         (mkpins 0 0)
         ([Z.shiftl 1 31; Z.shiftl 1 31; Z.shiftl 1 31]
          ++ map (fun o => Z.shiftl (Z.shiftr o 30) 31)
               (snd (_serial_putbyte 421
                       (mkFILE (Z.shiftl 1 31) (Z.shiftl 1 30) 115200 694 0 0)
                       (mkpins 0 0)))))
  = Some (421 mod 256).
Proof.
  apply (putbyte_getbyte_low_byte 4 421 30 31
           (mkFILE (Z.shiftl 1 31) (Z.shiftl 1 30) 115200 694 0 0)
           (mkFILE (Z.shiftl 1 31) (Z.shiftl 1 30) 115200 694 0 0)
           (mkpins 0 0) (mkpins 0 0)).
  - lia.
  - lia.
  - lia.
  - reflexivity.
  - reflexivity.
  - reflexivity.
  - repeat constructor.
  - vm_compute. repeat constructor.
Defined.

(** Pin 5 is high and an output before 0xA5 goes out on pin 30, and stays
    so. *)
Lemma putbyte_touches_one_pin_witness :
  let '(r, p', wave) :=
    _serial_putbyte 165 (mkFILE (Z.shiftl 1 31) (Z.shiftl 1 30) 115200 694 0 0)
      (mkpins 32 32) in
  let idle := Z.lor (_OUTA (mkpins 32 32)) (Z.shiftl 1 30) in
  r = 165
  /\ (exists frame_levels,
        wave = idle :: frame_levels
        /\ List.length frame_levels = 10%nat
        /\ _OUTA p' = last frame_levels idle)
  /\ Z.testbit (_OUTA p') 30 = true
  /\ Z.testbit (_DIRA p') 30 = true
  /\ (5 <> 30 ->
      Forall (fun o => Z.testbit o 5 = Z.testbit (_OUTA (mkpins 32 32)) 5) wave
      /\ Z.testbit (_OUTA p') 5 = Z.testbit (_OUTA (mkpins 32 32)) 5
      /\ Z.testbit (_DIRA p') 5 = Z.testbit (_DIRA (mkpins 32 32)) 5).
Proof.
  apply (putbyte_touches_one_pin 165 30 5
           (mkFILE (Z.shiftl 1 31) (Z.shiftl 1 30) 115200 694 0 0)
           (mkpins 32 32)); [lia | lia | reflexivity].
Defined.

(** A non-blocking receiver finds pin 31 high. *)
Lemma getbyte_byte_or_no_data_witness :
  0 <= -1 < 256
  \/ (-1 = -1
      /\ Z.land (_flag (mkFILE (Z.shiftl 1 31) (Z.shiftl 1 30) 115200 694 4 0)) 4
         <> 0
      /\ exists x rest,
           [Z.shiftl 1 31; 0] = x :: rest
           /\ Z.land x
                (drvarg0 (mkFILE (Z.shiftl 1 31) (Z.shiftl 1 30) 115200 694 4 0))
              <> 0).
Proof.
  apply (getbyte_byte_or_no_data 4 (-1)
           (mkFILE (Z.shiftl 1 31) (Z.shiftl 1 30) 115200 694 4 0)
           (mkpins 0 0) [Z.shiftl 1 31; 0]).
  reflexivity.
Defined.

(** Four idle periods on pin 31, seen by a blocking receiver. *)
Lemma getbyte_without_start_bit_witness :
  fst (_serial_getbyte 4
         (mkFILE (Z.shiftl 1 31) (Z.shiftl 1 30) 115200 694 0 0)
         (mkpins 0 (Z.shiftl 3 30))
         [Z.shiftl 1 31; Z.shiftl 1 31; Z.shiftl 1 31; Z.shiftl 1 31])
  = None.
Proof.
  apply (getbyte_without_start_bit 4 31 30 (Z.shiftl 1 31)
           (mkFILE (Z.shiftl 1 31) (Z.shiftl 1 30) 115200 694 0 0)
           (mkpins 0 (Z.shiftl 3 30))
           [Z.shiftl 1 31; Z.shiftl 1 31; Z.shiftl 1 31]).
  - lia.
  - lia.
  - reflexivity.
  - repeat constructor.
Defined.

(** The exit hook on pin 30, with pin 5 already high. *)
Lemma exit_hook_sets_one_pin_witness :
  Z.testbit (_OUTA (SimpleSerialExit 30 (mkpins 32 0))) 5 = true
  /\ Z.testbit (_DIRA (SimpleSerialExit 30 (mkpins 32 0))) 5 = false
  /\ SimpleSerialExit 30 (SimpleSerialExit 30 (mkpins 32 0))
     = SimpleSerialExit 30 (mkpins 32 0).
Proof.
  apply (exit_hook_sets_one_pin 30 5 (mkpins 32 0)); lia.
Defined.

End SerialFacts.

(** * Properties of the disk glue *)

Section DiskFacts.

Import DiskIO.

Context {card : Type} {transport : Transport card}.

(** ** Traces *)

Lemma releases_app (t u : list event) :
  releases (t ++ u) = (releases t + releases u)%nat.
Proof. unfold releases. now rewrite filter_app, length_app. Qed.

(** Unfolds one layer of driver code and names what the bus answers. *)
Ltac run_bus :=
  unfold bind, SendCommand, ReceiveSD, ReceiveBlock, SendBlock, SelectSD,
    EnableSD, ReleaseSD, WAITS, get_CardType, set_CardType, on_bus, ret;
  cbn [fst snd bus CardType].

Ltac answer :=
  match goal with
  | |- context [SendCommand_t ?p ?c ?a ?b] =>
      let r := fresh "r" in let c' := fresh "c" in
      destruct (SendCommand_t p c a b) as [r c'] eqn:?
  | |- context [ReceiveBlock_t ?p ?n ?b] =>
      let d := fresh "d" in let r := fresh "r" in let c' := fresh "c" in
      destruct (ReceiveBlock_t p n b) as [[d r] c'] eqn:?
  | |- context [ReceiveSD_t ?p ?n ?b] =>
      let d := fresh "d" in let c' := fresh "c" in
      destruct (ReceiveSD_t p n b) as [d c'] eqn:?
  | |- context [SendBlock_t ?p ?d ?k ?b] =>
      let r := fresh "r" in let c' := fresh "c" in
      destruct (SendBlock_t p d k b) as [r c'] eqn:?
  | |- context [SelectSD_t ?p ?b] =>
      let r := fresh "r" in let c' := fresh "c" in
      destruct (SelectSD_t p b) as [r c'] eqn:?
  end; cbn [fst snd bus CardType].

(** *** The loops keep [CardType], release nothing and send no command
    other than their own *)

Lemma read_loop_trace (pdrv : Z) (n : nat) :
  forall i buff off s,
    let '(_, s', t) := read_loop n i pdrv buff off s in
    CardType s' = CardType s
    /\ releases t = 0%nat
    /\ (forall cmd, filter (sends cmd) t = []).
Proof.
  induction n as [|n IH]; intros i buff off s.
  - cbn. auto.
  - cbn [read_loop]. run_bus. answer.
    destruct (r =? 0).
    + cbn. auto.
    + specialize (IH (i + 1) (store buff off (block 512 d)) (off + 512)%nat
                     {| bus := c; CardType := CardType s |}).
      destruct (read_loop n _ _ _ _ _) as [[a s'] t].
      cbn [CardType] in IH. destruct IH as (H1 & H2 & H3).
      repeat split; [exact H1 | exact H2 | intros cmd; cbn; apply H3].
Qed.

Lemma write_loop_trace (pdrv : Z) (buff : list Z) (n : nat) :
  forall i off s,
    let '(_, s', t) := write_loop n i pdrv buff off s in
    CardType s' = CardType s
    /\ releases t = 0%nat
    /\ (forall cmd, filter (sends cmd) t = []).
Proof.
  induction n as [|n IH]; intros i off s.
  - cbn. auto.
  - cbn [write_loop]. run_bus. answer.
    destruct (r =? 0).
    + cbn. auto.
    + specialize (IH (i + 1) (off + 512)%nat
                     {| bus := c; CardType := CardType s |}).
      destruct (write_loop n _ _ _ _ _) as [[a s'] t].
      cbn [CardType] in IH. destruct IH as (H1 & H2 & H3).
      repeat split; [exact H1 | exact H2 | intros cmd; cbn; apply H3].
Qed.

(** The counter leaves the loops between its start and the bound. *)
Lemma write_loop_count (pdrv : Z) (buff : list Z) (n : nat) :
  forall i off s,
    i <= fst (fst (write_loop n i pdrv buff off s)) <= i + Z.of_nat n.
Proof.
  induction n as [|n IH]; intros i off s.
  - cbn. lia.
  - cbn [write_loop]. run_bus. answer.
    destruct (r =? 0).
    + cbn. lia.
    + specialize (IH (i + 1) (off + 512)%nat
                     {| bus := c; CardType := CardType s |}).
      destruct (write_loop n _ _ _ _ _) as [[a s'] t].
      cbn [fst] in *. lia.
Qed.

(** ** Chip select *)

Lemma released_once_last (pdrv : Z) : released_once pdrv [EvRelease pdrv].
Proof. exists []. split; reflexivity. Qed.

Lemma released_once_cons (pdrv : Z) (e : event) (t : list event) :
  is_release e = false -> released_once pdrv t -> released_once pdrv (e :: t).
Proof.
  intros He (u & -> & Hu). exists (e :: u). split; [reflexivity|].
  unfold releases in *. cbn [filter]. now rewrite He.
Qed.

Lemma released_once_app (pdrv : Z) (t1 t : list event) :
  releases t1 = 0%nat -> released_once pdrv t -> released_once pdrv (t1 ++ t).
Proof.
  intros H1 (u & -> & Hu). exists (t1 ++ u). split; [apply app_assoc|].
  now rewrite releases_app, H1, Hu.
Qed.

Ltac released :=
  cbn [snd app]; rewrite ?app_nil_r; rewrite <- ?app_assoc; cbn [app];
  repeat first
    [ apply released_once_last
    | apply released_once_cons; [reflexivity|]
    | apply released_once_app; [assumption|] ].

(** C5.  [disk_read], [disk_write] and [disk_ioctl] release chip select
    exactly once, as the last thing they do on the bus, for every drive,
    every argument and every behaviour of the transport. *)
Theorem release_exactly_once
    (pdrv sector count ctrl word : Z) (buff : list Z) (s : state card) :
  released_once pdrv (snd (disk_read pdrv buff sector count s))
  /\ released_once pdrv (snd (disk_write pdrv buff sector count s))
  /\ released_once pdrv (snd (disk_ioctl pdrv ctrl word s)).
Proof.
  split; [|split].
  - unfold disk_read. run_bus. answer.
    destruct (r =? 0).
    + pose proof (read_loop_trace pdrv (Z.to_nat count) 0 buff 0%nat
                    {| bus := c; CardType := CardType s |}) as Hloop.
      destruct (read_loop _ _ _ _ _ _) as [[[i b] s1] t1].
      destruct Hloop as (_ & Hrel & _).
      destruct (command_eqb _ CMD18).
      * answer. destruct (negb (i =? count)); released.
      * destruct (negb (i =? count)); released.
    + destruct (negb (0 =? count)); released.
  - unfold disk_write. run_bus.
    destruct (count =? 1).
    + answer. destruct (r =? 0).
      * answer. destruct (negb (r0 =? 0)).
        -- destruct (negb (count =? 1)); released.
        -- destruct (negb (count =? 0)); released.
      * destruct (negb (count =? 0)); released.
    + destruct (negb (Z.land (CardType s) CT_SDC =? 0)); [answer|];
        answer;
        (match goal with |- context [if ?r =? 0 then _ else _] =>
           destruct (r =? 0) end;
         [| destruct (negb (count =? 0)); released]);
        (match goal with |- context [write_loop ?n ?i ?p ?b ?o ?s0] =>
           pose proof (write_loop_trace p b n i o s0) as Hloop;
           destruct (write_loop n i p b o s0) as [[i1 s1] t1];
           destruct Hloop as (_ & Hrel & _)
         end);
        answer;
        (match goal with |- context [if ?r =? 0 then _ else _] =>
           destruct (r =? 0) end);
        (match goal with |- context [negb (count =? ?i)] =>
           destruct (negb (count =? i)) end);
        released.
  - unfold disk_ioctl. run_bus.
    destruct (ctrl =? CTRL_SYNC).
    { answer. destruct (negb (r =? 0)); released. }
    destruct (ctrl =? GET_SECTOR_COUNT).
    { answer. destruct (r =? 0); [|released].
      answer. destruct (negb (r0 =? 0)); [|released].
      destruct (negb (Z.land (nth 0 (block 16 d) 0) 32 =? 0)); released. }
    destruct (ctrl =? GET_BLOCK_SIZE); released.
Qed.


(** ** Reading *)

(** C2, as the code has it.  In a read of more than one sector CMD12 is
    sent, after the receive loop and whether or not a block receive
    failed, when CMD18 was acknowledged; when it was not, the card is
    released at once and CMD12 is not sent. *)
Theorem disk_read_stop_transmission
    (pdrv sector count : Z) (buff : list Z) (s : state card) :
  1 < count ->
  let addr := sd_address (CardType s) sector in
  let r18 := fst (SendCommand_t pdrv CMD18 addr (bus s)) in
  let c := snd (SendCommand_t pdrv CMD18 addr (bus s)) in
  let loop :=
    read_loop (Z.to_nat count) 0 pdrv buff 0
      {| bus := c; CardType := CardType s |} in
  let r12 := fst (SendCommand_t pdrv CMD12 0 (bus (snd (fst loop)))) in
  (r18 = 0 ->
   snd (disk_read pdrv buff sector count s)
   = [EvCommand pdrv CMD18 addr 0] ++ snd loop
     ++ [EvCommand pdrv CMD12 0 r12; EvRelease pdrv])
  /\ (r18 <> 0 ->
      snd (disk_read pdrv buff sector count s)
      = [EvCommand pdrv CMD18 addr r18; EvRelease pdrv]).
Proof.
  intros Hcount addr r18 c loop r12. subst r18 c loop r12.
  unfold disk_read. run_bus.
  apply Z.ltb_lt in Hcount. rewrite Hcount. fold addr.
  destruct (SendCommand_t pdrv CMD18 addr (bus s)) as [r c]. cbn [fst snd].
  split; intros Hr.
  - subst r. cbn [Z.eqb command_eqb].
    destruct (read_loop _ _ _ _ _ _) as [[[i b] s1] t1].
    cbn [fst snd].
    destruct (SendCommand_t pdrv CMD12 0 (bus s1)) as [r12 c12].
    destruct (negb (i =? count)); cbn [fst snd app];
      rewrite ?app_nil_r; rewrite <- ?app_assoc; reflexivity.
  - apply Z.eqb_neq in Hr. rewrite Hr.
    destruct (negb (0 =? count)); reflexivity.
Qed.

(** ** Empty requests *)

(** C10.  With count 0 both calls report [RES_OK], whatever the drive, the
    sector and the transport do, and move no data.  [disk_read] sends
    CMD17 and releases the card, and succeeds whatever the answer;
    [disk_write] goes the multi-block way: ACMD23 on an SD card, CMD25,
    the stop token 0xFD when CMD25 was acknowledged, and succeeds whatever
    the card says to the token. *)
Theorem zero_count_succeeds
    (pdrv sector : Z) (buff : list Z) (s : state card) :
  let ct := CardType s in
  let addr := sd_address ct sector in
  let r17 := SendCommand_t pdrv CMD17 addr (bus s) in
  let sd := negb (Z.land ct CT_SDC =? 0) in
  let r23 := SendCommand_t pdrv ACMD23 0 (bus s) in
  let r25 := SendCommand_t pdrv CMD25 addr (if sd then snd r23 else bus s) in
  let stop := SendBlock_t pdrv None 253 (snd r25) in
  disk_read pdrv buff sector 0 s
  = ((RES_OK, buff),
     {| bus := ReleaseSD_t pdrv (snd r17); CardType := ct |},
     [EvCommand pdrv CMD17 addr (fst r17); EvRelease pdrv])
  /\ disk_write pdrv buff sector 0 s
     = (RES_OK,
        {| bus := ReleaseSD_t pdrv
                    (if fst r25 =? 0 then snd stop else snd r25);
           CardType := ct |},
        (if sd then [EvCommand pdrv ACMD23 0 (fst r23)] else [])
        ++ [EvCommand pdrv CMD25 addr (fst r25)]
        ++ (if fst r25 =? 0 then [EvSendBlock pdrv None 253 (fst stop)] else [])
        ++ [EvRelease pdrv])
  /\ filter is_data_transfer (snd (disk_read pdrv buff sector 0 s)) = []
  /\ filter is_data_transfer (snd (disk_write pdrv buff sector 0 s)) = [].
Proof.
  intros ct addr r17 sd r23 r25 stop.
  assert (Hread : disk_read pdrv buff sector 0 s
    = ((RES_OK, buff),
       {| bus := ReleaseSD_t pdrv (snd r17); CardType := ct |},
       [EvCommand pdrv CMD17 addr (fst r17); EvRelease pdrv])).
  { subst r17. unfold disk_read. run_bus.
    change (1 <? 0) with false. cbv iota. fold ct addr.
    destruct (SendCommand_t pdrv CMD17 addr (bus s)) as [r c].
    destruct (r =? 0); reflexivity. }
  assert (Hwrite : disk_write pdrv buff sector 0 s
    = (RES_OK,
       {| bus := ReleaseSD_t pdrv
                   (if fst r25 =? 0 then snd stop else snd r25);
          CardType := ct |},
       (if sd then [EvCommand pdrv ACMD23 0 (fst r23)] else [])
       ++ [EvCommand pdrv CMD25 addr (fst r25)]
       ++ (if fst r25 =? 0 then [EvSendBlock pdrv None 253 (fst stop)] else [])
       ++ [EvRelease pdrv])).
  { subst stop r25 r23. unfold disk_write. run_bus.
    change (0 =? 1) with false. cbv iota. fold ct addr sd.
    destruct sd.
    - destruct (SendCommand_t pdrv ACMD23 0 (bus s)) as [r23 c1].
      cbn [fst snd bus].
      destruct (SendCommand_t pdrv CMD25 addr c1) as [r25 c2].
      cbn [fst snd bus].
      destruct (r25 =? 0); [|reflexivity].
      cbn [write_loop Z.to_nat]. run_bus.
      destruct (SendBlock_t pdrv None 253 c2) as [rs c3].
      destruct (rs =? 0); reflexivity.
    - destruct (SendCommand_t pdrv CMD25 addr (bus s)) as [r25 c2].
      cbn [fst snd bus].
      destruct (r25 =? 0); [|reflexivity].
      cbn [write_loop Z.to_nat]. run_bus.
      destruct (SendBlock_t pdrv None 253 c2) as [rs c3].
      destruct (rs =? 0); reflexivity. }
  rewrite Hread, Hwrite. repeat split.
  cbn [snd]. destruct sd, (fst r25 =? 0); reflexivity.
Qed.

(** ** Writing *)

(** C8.  In a write of more than one sector whose CMD25 is acknowledged,
    the stop token 0xFD follows the block loop; when the card refuses it
    the result is [RES_ERROR] however many blocks went through, and
    otherwise the result is [RES_OK] exactly when all of them did. *)
Theorem multi_write_stop_token
    (pdrv sector count : Z) (buff : list Z) (s : state card) :
  1 < count ->
  let ct := CardType s in
  let addr := sd_address ct sector in
  let sd := negb (Z.land ct CT_SDC =? 0) in
  let r23 := SendCommand_t pdrv ACMD23 count (bus s) in
  let r25 := SendCommand_t pdrv CMD25 addr (if sd then snd r23 else bus s) in
  fst r25 = 0 ->
  let loop :=
    write_loop (Z.to_nat count) 0 pdrv buff 0
      {| bus := snd r25; CardType := ct |} in
  let sent := fst (fst loop) in
  let stop := fst (SendBlock_t pdrv None 253 (bus (snd (fst loop)))) in
  snd (disk_write pdrv buff sector count s)
  = (if sd then [EvCommand pdrv ACMD23 count (fst r23)] else [])
    ++ [EvCommand pdrv CMD25 addr 0] ++ snd loop
    ++ [EvSendBlock pdrv None 253 stop; EvRelease pdrv]
  /\ (stop = 0 -> fst (fst (disk_write pdrv buff sector count s)) = RES_ERROR)
  /\ (stop <> 0 ->
      (fst (fst (disk_write pdrv buff sector count s)) = RES_OK
       <-> sent = count)).
Proof.
  intros Hcount ct addr sd r23 r25 Hack loop sent stop.
  subst stop sent loop r25 r23.
  unfold disk_write. run_bus. fold ct addr sd.
  replace (count =? 1) with false by (symmetry; apply Z.eqb_neq; lia).
  revert Hack. destruct sd.
  - destruct (SendCommand_t pdrv ACMD23 count (bus s)) as [r23 c1].
    cbn [fst snd bus].
    destruct (SendCommand_t pdrv CMD25 addr c1) as [r25 c2].
    cbn [fst snd bus]. intros ->. cbn [Z.eqb].
    destruct (write_loop _ _ _ _ _ _) as [[i s1] t1]. cbn [fst snd].
    destruct (SendBlock_t pdrv None 253 (bus s1)) as [rs c3]. cbn [fst snd].
    destruct (Z.eqb_spec rs 0) as [->|Hrs].
    + replace (count =? 0) with false by (symmetry; apply Z.eqb_neq; lia).
      cbn [negb fst snd app]. rewrite ?app_nil_r; rewrite <- ?app_assoc.
      repeat split; try reflexivity; lia.
    + destruct (Z.eqb_spec count i) as [->|Hi]; cbn [negb fst snd app];
        rewrite ?app_nil_r; rewrite <- ?app_assoc;
        repeat split; try reflexivity; try discriminate; try lia; congruence.
  - destruct (SendCommand_t pdrv CMD25 addr (bus s)) as [r25 c2].
    cbn [fst snd bus]. intros ->. cbn [Z.eqb].
    destruct (write_loop _ _ _ _ _ _) as [[i s1] t1]. cbn [fst snd].
    destruct (SendBlock_t pdrv None 253 (bus s1)) as [rs c3]. cbn [fst snd].
    destruct (Z.eqb_spec rs 0) as [->|Hrs].
    + replace (count =? 0) with false by (symmetry; apply Z.eqb_neq; lia).
      cbn [negb fst snd app]. rewrite ?app_nil_r; rewrite <- ?app_assoc.
      repeat split; try reflexivity; lia.
    + destruct (Z.eqb_spec count i) as [->|Hi]; cbn [negb fst snd app];
        rewrite ?app_nil_r; rewrite <- ?app_assoc;
        repeat split; try reflexivity; try discriminate; try lia; congruence.
Qed.

(** ** The sector count *)

Lemma block_byte (len : nat) (data : list Z) (k : nat) :
  0 <= nth k (block len data) 0 < 256.
Proof.
  destruct (nth_in_or_default k (block len data) 0) as [Hin | Heq];
    [|rewrite Heq; lia].
  unfold block in *. apply in_map_iff in Hin.
  destruct Hin as (x & <- & _). unfold to_byte. apply Z.mod_pos_bound. lia.
Qed.

Lemma csd_field_range (len : nat) (data : list Z) :
  0 <= csd_field (block len data) < 2 ^ 22.
Proof.
  unfold csd_field.
  pose proof (block_byte len data 9). pose proof (block_byte len data 8).
  change 63 with (Z.ones 6). rewrite Z.land_ones by lia.
  pose proof (Z.mod_pos_bound (nth 7 (block len data) 0) (2 ^ 6) ltac:(lia)).
  rewrite !Z.shiftl_mul_pow2 by lia. lia.
Qed.

(** C7.  When CMD9 is acknowledged and the sixteen bytes of the CSD arrive
    with bit 5 of byte 0 set, [GET_SECTOR_COUNT] reports [RES_OK] and
    stores [((csd[9] + (csd[8] << 8) + ((csd[7] & 63) << 16)) + 1) << 10],
    shifted as the [unsigned int] it is; below the largest field value
    nothing is lost in the shift, and bytes 0x3F, 0x00, 0x01 give
    [0x3F0002 << 10]. *)
Theorem get_sector_count_v1
    (pdrv word ok : Z) (s : state card) (csd : list Z) (c1 c2 : card) :
  SendCommand_t pdrv CMD9 0 (bus s) = (0, c1) ->
  ReceiveBlock_t pdrv 16 c1 = (csd, ok, c2) ->
  ok <> 0 ->
  Z.land (nth 0 (block 16 csd) 0) 32 <> 0 ->
  let b := block 16 csd in
  let stored := to_uint (Z.shiftl (csd_field b + 1) 10) in
  disk_ioctl pdrv GET_SECTOR_COUNT word s
  = ((RES_OK, stored),
     {| bus := ReleaseSD_t pdrv c2; CardType := CardType s |},
     [EvCommand pdrv CMD9 0 0; EvReceiveBlock pdrv 16 b ok; EvRelease pdrv])
  /\ (csd_field b + 1 < 2 ^ 22 -> stored = Z.shiftl (csd_field b + 1) 10)
  /\ (nth 7 b 0 = 63 -> nth 8 b 0 = 0 -> nth 9 b 0 = 1 ->
      stored = Z.shiftl 4128770 10).
Proof.
  intros H9 Hcsd Hok Hv1 b stored.
  pose proof (csd_field_range 16 csd) as Hrange. fold b in Hrange.
  repeat split.
  - unfold disk_ioctl. run_bus.
    change (GET_SECTOR_COUNT =? CTRL_SYNC) with false.
    change (GET_SECTOR_COUNT =? GET_SECTOR_COUNT) with true. cbv beta iota.
    rewrite H9. cbn [Z.eqb fst snd bus CardType]. rewrite Hcsd.
    cbn [fst snd bus CardType].
    apply Z.eqb_neq in Hok, Hv1. rewrite Hok, Hv1. cbn [negb fst snd app].
    fold b. unfold csd_sectors_v1, shl_uint. fold (csd_field b).
    change (10 mod 32) with 10.
    replace (to_uint (csd_field b + 1)) with (csd_field b + 1);
      [reflexivity|].
    unfold to_uint. symmetry. apply Z.mod_small. lia.
  - intros Hfield. unfold stored, to_uint. apply Z.mod_small.
    rewrite Z.shiftl_mul_pow2 by lia. lia.
  - intros H7 H8 H9'. unfold stored, csd_field. rewrite H7, H8, H9'.
    reflexivity.
Qed.

(** The shift is a 32-bit one: with all 22 bits of the field set the
    count is 2^32 sectors and the stored word is 0. *)
Lemma sector_count_full_field (csd : list Z) :
  csd_field csd = 2 ^ 22 - 1 -> csd_sectors_v1 csd = 0.
Proof.
  intros H. unfold csd_sectors_v1. fold (csd_field csd). rewrite H.
  reflexivity.
Qed.

(** ** Initialisation *)

Lemma dummy_clocks_run (pdrv : Z) (n : nat) :
  forall s,
    fst (dummy_clocks n pdrv s)
    = (tt, {| bus := idle_clocked n pdrv (bus s); CardType := CardType s |}).
Proof.
  induction n as [|n IH]; intros s.
  - now destruct s.
  - cbn [dummy_clocks idle_clocked]. run_bus.
    destruct (ReceiveSD_t pdrv 1 (bus s)) as [d c]. cbn [snd].
    specialize (IH {| bus := c; CardType := CardType s |}).
    destruct (dummy_clocks n pdrv _) as [[u s'] t].
    cbn [fst bus CardType] in *. now inversion IH.
Qed.

(** A card that becomes ready stops the loop before the bound. *)
Lemma poll_loop_ready (pdrv : Z) (cmd : command) (arg : Z) (n : nat) :
  forall i s c',
    ready_within n pdrv cmd arg (bus s) = Some c' ->
    snd (fst (poll_loop n i pdrv cmd arg s))
    = {| bus := c'; CardType := CardType s |}
    /\ i <= fst (fst (poll_loop n i pdrv cmd arg s)) < i + Z.of_nat n.
Proof.
  induction n as [|n IH]; intros i s c' Hready; [discriminate|].
  cbn [ready_within] in Hready. cbn [poll_loop]. run_bus.
  destruct (SendCommand_t pdrv cmd arg (bus s)) as [r c].
  destruct (r =? 0).
  - inversion Hready; subst. cbn [fst snd]. split; [reflexivity | lia].
  - specialize (IH (i + 1) {| bus := c; CardType := CardType s |} c' Hready).
    destruct (poll_loop n _ _ _ _ _) as [[j s'] t].
    cbn [fst snd CardType] in *. destruct IH as [-> IH]. split; [reflexivity | lia].
Qed.

(** A card that never becomes ready lets the counter reach the bound. *)
Lemma poll_loop_exhausted (pdrv : Z) (cmd : command) (arg : Z) (n : nat) :
  forall i s,
    ready_within n pdrv cmd arg (bus s) = None ->
    CardType (snd (fst (poll_loop n i pdrv cmd arg s))) = CardType s
    /\ fst (fst (poll_loop n i pdrv cmd arg s)) = i + Z.of_nat n.
Proof.
  induction n as [|n IH]; intros i s Hready.
  - cbn. split; [reflexivity | lia].
  - cbn [ready_within] in Hready. cbn [poll_loop]. run_bus.
    destruct (SendCommand_t pdrv cmd arg (bus s)) as [r c].
    destruct (r =? 0); [discriminate|].
    specialize (IH (i + 1) {| bus := c; CardType := CardType s |} Hready).
    destruct (poll_loop n _ _ _ _ _) as [[j s'] t].
    cbn [fst snd CardType] in *. destruct IH as [-> ->]. split; [reflexivity | lia].
Qed.

Lemma poll_limit_nat : Z.of_nat (Z.to_nat POLL_LIMIT) = POLL_LIMIT.
Proof. reflexivity. Qed.

(** The two ways into a polling loop, said call by call. *)
Lemma polling_start_sdv2 (pdrv : Z) (c c2 c3 c4 : card) (echo : list Z) :
  SendCommand_t pdrv CMD0 0 (woken pdrv c) = (1, c2) ->
  SendCommand_t pdrv CMD8 426 c2 = (1, c3) ->
  ReceiveSD_t pdrv 4 c3 = (echo, c4) ->
  nth 2 (block 4 echo) 0 = 1 ->
  nth 3 (block 4 echo) 0 = 170 ->
  polling_start pdrv c = Some (ACMD41, Z.shiftl 1 30, c4).
Proof.
  intros H0 H8 Hecho E2 E3. unfold polling_start, probe.
  now rewrite H0, Z.eqb_refl, H8, Z.eqb_refl, Hecho, E2, E3.
Qed.

Lemma polling_start_legacy (pdrv r8 r41 : Z) (c c2 c3 c4 : card) :
  SendCommand_t pdrv CMD0 0 (woken pdrv c) = (1, c2) ->
  SendCommand_t pdrv CMD8 426 c2 = (r8, c3) ->
  r8 <> 1 ->
  SendCommand_t pdrv ACMD41 0 c3 = (r41, c4) ->
  polling_start pdrv c = Some (if r41 <=? 1 then ACMD41 else CMD1, 0, c4).
Proof.
  intros H0 H8 Hr8 H41. unfold polling_start, probe.
  apply Z.eqb_neq in Hr8. now rewrite H0, Z.eqb_refl, H8, Hr8, H41.
Qed.

Lemma classify_exhausted (pdrv : Z) (s : state card)
    (cmd : command) (arg : Z) (c : card) :
  probe pdrv (bus s) = Some (cmd, arg, c) ->
  ready_within (Z.to_nat POLL_LIMIT) pdrv cmd arg c = None ->
  fst (fst (classify pdrv s)) = 0.
Proof.
  intros Hprobe Hready. unfold probe in Hprobe. unfold classify.
  pose proof poll_limit_nat as Hlimit.
  set (N := Z.to_nat POLL_LIMIT) in *.
  run_bus.
  destruct (SendCommand_t pdrv CMD0 0 (bus s)) as [r0 c2].
  destruct (r0 =? 1); [|discriminate].
  cbn [fst snd bus CardType].
  destruct (SendCommand_t pdrv CMD8 426 c2) as [r8 c3].
  destruct (r8 =? 1); cbn [fst snd bus CardType].
  - destruct (ReceiveSD_t pdrv 4 c3) as [echo c4].
    destruct ((nth 2 (block 4 echo) 0 =? 1) && (nth 3 (block 4 echo) 0 =? 170));
      [|discriminate].
    inversion Hprobe; subst cmd arg c.
    destruct (poll_loop_exhausted pdrv ACMD41 (Z.shiftl 1 30) N 0
                {| bus := c4; CardType := CardType s |} Hready) as [_ Hi].
    destruct (poll_loop N 0 pdrv ACMD41 _ _) as [[i s'] t].
    cbn [fst snd] in Hi. rewrite Hlimit in Hi. subst i.
    rewrite Z.ltb_irrefl. reflexivity.
  - destruct (SendCommand_t pdrv ACMD41 0 c3) as [r41 c4].
    destruct (r41 <=? 1); inversion Hprobe; subst cmd arg c;
      [ destruct (poll_loop_exhausted pdrv ACMD41 0 N 0
                    {| bus := c4; CardType := CardType s |} Hready) as [_ Hi];
        destruct (poll_loop N 0 pdrv ACMD41 _ _) as [[i s'] t]
      | destruct (poll_loop_exhausted pdrv CMD1 0 N 0
                    {| bus := c4; CardType := CardType s |} Hready) as [_ Hi];
        destruct (poll_loop N 0 pdrv CMD1 _ _) as [[i s'] t] ];
      cbn [fst snd] in Hi; rewrite Hlimit in Hi; subst i;
      rewrite Z.eqb_refl; reflexivity.
Qed.

(** [disk_initialize] stores what [classify] finds, on the bus it has
    woken, and reports [STA_NOINIT] exactly for type 0. *)
Lemma disk_initialize_classify (pdrv : Z) (s : state card) :
  let type :=
    fst (fst (classify pdrv
                {| bus := woken pdrv (bus s); CardType := CardType s |})) in
  CardType (snd (fst (disk_initialize pdrv s))) = type
  /\ fst (fst (disk_initialize pdrv s))
     = (if type =? 0 then STA_NOINIT else 0).
Proof.
  unfold disk_initialize, woken. run_bus.
  pose proof (dummy_clocks_run pdrv 100
                {| bus := EnableSD_t pdrv (bus s); CardType := CardType s |})
    as Hclk.
  destruct (dummy_clocks 100 pdrv _) as [[u s1] t1].
  cbn [fst bus CardType] in Hclk. inversion Hclk; subst u s1.
  destruct (classify pdrv _) as [[type s2] t2]. cbn [fst snd].
  destruct (type =? 0); cbn [fst snd CardType]; split; reflexivity.
Qed.

(** C6.  A card that is taken to a polling loop and does not answer 0 to
    any of the 10000 attempts leaves [CardType] at 0, and
    [disk_initialize] returns [STA_NOINIT]. *)
Theorem initialize_polling_exhausted
    (pdrv : Z) (s : state card) (cmd : command) (arg : Z) (c : card) :
  polling_start pdrv (bus s) = Some (cmd, arg, c) ->
  ready_within (Z.to_nat POLL_LIMIT) pdrv cmd arg c = None ->
  fst (fst (disk_initialize pdrv s)) = STA_NOINIT
  /\ CardType (snd (fst (disk_initialize pdrv s))) = 0.
Proof.
  intros Hstart Hready.
  destruct (disk_initialize_classify pdrv s) as (Htype & Hstatus).
  rewrite Htype, Hstatus.
  rewrite (classify_exhausted pdrv
             {| bus := woken pdrv (bus s); CardType := CardType s |}
             cmd arg c Hstart Hready).
  split; reflexivity.
Qed.

Lemma classify_sdv2 (pdrv : Z) (s : state card)
    (c2 c3 c4 c5 c6 c7 : card) (echo ocr : list Z) :
  SendCommand_t pdrv CMD0 0 (bus s) = (1, c2) ->
  SendCommand_t pdrv CMD8 426 c2 = (1, c3) ->
  ReceiveSD_t pdrv 4 c3 = (echo, c4) ->
  nth 2 (block 4 echo) 0 = 1 ->
  nth 3 (block 4 echo) 0 = 170 ->
  ready_within (Z.to_nat POLL_LIMIT) pdrv ACMD41 (Z.shiftl 1 30) c4 = Some c5 ->
  SendCommand_t pdrv CMD58 0 c5 = (0, c6) ->
  ReceiveSD_t pdrv 4 c6 = (ocr, c7) ->
  fst (fst (classify pdrv s))
  = if Z.testbit (nth 0 (block 4 ocr) 0) 6
    then Z.lor CT_SDC2 CT_BLOCK
    else CT_SDC2.
Proof.
  intros H0 H8 Hecho E2 E3 Hready H58 Hocr. unfold classify.
  pose proof poll_limit_nat as Hlimit.
  set (N := Z.to_nat POLL_LIMIT) in *.
  run_bus. rewrite H0. cbn [Z.eqb Pos.eqb fst snd bus CardType].
  rewrite H8. cbn [Z.eqb Pos.eqb fst snd bus CardType].
  rewrite Hecho. cbn [fst snd bus CardType].
  rewrite E2, E3. cbn [Z.eqb Pos.eqb andb].
  destruct (poll_loop_ready pdrv ACMD41 (Z.shiftl 1 30) N 0
              {| bus := c4; CardType := CardType s |} c5 Hready) as [Hs Hi].
  destruct (poll_loop N 0 pdrv ACMD41 _ _) as [[i s'] t].
  cbn [fst snd bus CardType] in Hs, Hi. subst s'. rewrite Hlimit in Hi.
  replace (i <? POLL_LIMIT) with true by (symmetry; apply Z.ltb_lt; lia).
  cbn [fst snd bus CardType]. rewrite H58.
  cbn [Z.eqb fst snd bus CardType]. rewrite Hocr.
  cbn [fst snd bus CardType].
  change 64 with (Z.shiftl 1 6). rewrite pin_is_low by lia.
  destruct (Z.testbit (nth 0 (block 4 ocr) 0) 6); reflexivity.
Qed.

(** C9.  A card that answers 1 to CMD0 and to CMD8, echoes 0x01 and 0xAA,
    answers 0 to ACMD41 with argument [1 << 30] within the 10000 attempts
    and answers 0 to CMD58 is classified SDv2, and block-addressed exactly
    when bit 6 of the first byte read after CMD58 is set. *)
Theorem initialize_sdv2
    (pdrv : Z) (s : state card)
    (c2 c3 c4 c5 c6 c7 : card) (echo ocr : list Z) :
  SendCommand_t pdrv CMD0 0 (woken pdrv (bus s)) = (1, c2) ->
  SendCommand_t pdrv CMD8 426 c2 = (1, c3) ->
  ReceiveSD_t pdrv 4 c3 = (echo, c4) ->
  nth 2 (block 4 echo) 0 = 1 ->
  nth 3 (block 4 echo) 0 = 170 ->
  ready_within (Z.to_nat POLL_LIMIT) pdrv ACMD41 (Z.shiftl 1 30) c4 = Some c5 ->
  SendCommand_t pdrv CMD58 0 c5 = (0, c6) ->
  ReceiveSD_t pdrv 4 c6 = (ocr, c7) ->
  let type := CardType (snd (fst (disk_initialize pdrv s))) in
  fst (fst (disk_initialize pdrv s)) = 0
  /\ Z.land type CT_SDC2 = CT_SDC2
  /\ Z.land type (Z.lor CT_MMC CT_SDC1) = 0
  /\ (Z.land type CT_BLOCK = CT_BLOCK
      <-> Z.land (nth 0 (block 4 ocr) 0) 64 <> 0).
Proof.
  intros H0 H8 Hecho E2 E3 Hready H58 Hocr type. subst type.
  destruct (disk_initialize_classify pdrv s) as (Htype & Hstatus).
  rewrite Htype, Hstatus.
  rewrite (classify_sdv2 pdrv
             {| bus := woken pdrv (bus s); CardType := CardType s |}
             c2 c3 c4 c5 c6 c7 echo ocr H0 H8 Hecho E2 E3 Hready H58 Hocr).
  assert (Hbit : Z.land (nth 0 (block 4 ocr) 0) 64 <> 0
                 <-> Z.testbit (nth 0 (block 4 ocr) 0) 6 = true).
  { rewrite <- Z.eqb_neq. change 64 with (Z.shiftl 1 6).
    rewrite pin_is_low by lia.
    destruct (Z.testbit (nth 0 (block 4 ocr) 0) 6); cbn; intuition congruence. }
  rewrite Hbit.
  destruct (Z.testbit (nth 0 (block 4 ocr) 0) 6);
    (repeat split; try reflexivity; intros H; try reflexivity;
     discriminate H).
Qed.

(** ** One card type for all drives *)

(** The first thing a read or a write does on the bus. *)
Lemma disk_read_first (pdrv sector count : Z) (buff : list Z) (s : state card) :
  let cmd := if 1 <? count then CMD18 else CMD17 in
  let addr := sd_address (CardType s) sector in
  hd_error (snd (disk_read pdrv buff sector count s))
  = Some (EvCommand pdrv cmd addr (fst (SendCommand_t pdrv cmd addr (bus s)))).
Proof.
  intros cmd addr. unfold disk_read. run_bus. fold cmd addr.
  destruct (SendCommand_t pdrv cmd addr (bus s)) as [r c].
  destruct (r =? 0).
  - destruct (read_loop _ _ _ _ _ _) as [[[i b] s1] t1].
    destruct (command_eqb cmd CMD18).
    + destruct (SendCommand_t pdrv CMD12 0 (bus s1)) as [r12 c12].
      destruct (negb (i =? count)); reflexivity.
    + destruct (negb (i =? count)); reflexivity.
  - destruct (negb (0 =? count)); reflexivity.
Qed.

Lemma disk_write_first (pdrv sector count : Z) (buff : list Z) (s : state card) :
  let addr := sd_address (CardType s) sector in
  let first :=
    if count =? 1 then (CMD24, addr)
    else if Z.land (CardType s) CT_SDC =? 0 then (CMD25, addr)
    else (ACMD23, count) in
  hd_error (snd (disk_write pdrv buff sector count s))
  = Some (EvCommand pdrv (fst first) (snd first)
            (fst (SendCommand_t pdrv (fst first) (snd first) (bus s)))).
Proof.
  intros addr first. subst first. unfold disk_write. run_bus. fold addr.
  destruct (count =? 1) eqn:Hone; cbn [fst snd].
  - answer. destruct (r =? 0).
    + answer. destruct (negb (r0 =? 0)), (negb (count =? 1)),
        (negb (count =? 0)); reflexivity.
    + destruct (negb (count =? 0)); reflexivity.
  - destruct (Z.land (CardType s) CT_SDC =? 0); cbn [negb fst snd];
      [|answer]; answer;
      (match goal with |- context [if ?r =? 0 then _ else _] =>
         destruct (r =? 0) end;
       [| destruct (negb (count =? 0)); reflexivity]);
      (match goal with |- context [write_loop ?n ?i ?p ?b ?o ?s0] =>
         destruct (write_loop n i p b o s0) as [[i1 s1] t1]
       end);
      answer;
      (match goal with |- context [if ?r =? 0 then _ else _] =>
         destruct (r =? 0) end);
      (match goal with |- context [negb (count =? ?i)] =>
         destruct (negb (count =? i)) end);
      reflexivity.
Qed.

(** The commands of a read: the read command once, with the address the
    card type gives. *)
Lemma disk_read_commands (pdrv sector count : Z) (buff : list Z) (s : state card) :
  let cmd := if 1 <? count then CMD18 else CMD17 in
  let addr := sd_address (CardType s) sector in
  filter (sends cmd) (snd (disk_read pdrv buff sector count s))
  = [EvCommand pdrv cmd addr (fst (SendCommand_t pdrv cmd addr (bus s)))].
Proof.
  intros cmd addr. unfold disk_read. run_bus. fold cmd addr.
  destruct (SendCommand_t pdrv cmd addr (bus s)) as [r c]. cbn [fst snd].
  assert (Hself : command_eqb cmd cmd = true)
    by (subst cmd; destruct (1 <? count); reflexivity).
  assert (H12 : command_eqb CMD12 cmd = false)
    by (subst cmd; destruct (1 <? count); reflexivity).
  destruct (r =? 0).
  - pose proof (read_loop_trace pdrv (Z.to_nat count) 0 buff 0%nat
                  {| bus := c; CardType := CardType s |}) as Hloop.
    destruct (read_loop _ _ _ _ _ _) as [[[i b] s1] t1].
    destruct Hloop as (_ & _ & Hnone). specialize (Hnone cmd).
    destruct (command_eqb cmd CMD18);
      [destruct (SendCommand_t pdrv CMD12 0 (bus s1)) as [r12 c12]|];
      destruct (negb (i =? count)); cbn [snd app]; rewrite ?app_nil_r;
      cbn [filter sends]; rewrite Hself; f_equal;
      repeat progress (rewrite ?filter_app; cbn [filter sends app]);
      rewrite ?H12, Hnone; reflexivity.
  - destruct (negb (0 =? count)); cbn [snd app filter sends];
      rewrite Hself; reflexivity.
Qed.

(** The commands of a write: ACMD23 with the sector count exactly when
    the card type has an SD bit and the write is not of one sector, then
    the write command once, with the address the card type gives. *)
Lemma disk_write_commands (pdrv sector count : Z) (buff : list Z) (s : state card) :
  let ct := CardType s in
  let addr := sd_address ct sector in
  let announce := negb (count =? 1) && negb (Z.land ct CT_SDC =? 0) in
  let cmd := if count =? 1 then CMD24 else CMD25 in
  let r23 := SendCommand_t pdrv ACMD23 count (bus s) in
  let r := SendCommand_t pdrv cmd addr (if announce then snd r23 else bus s) in
  filter (sends cmd) (snd (disk_write pdrv buff sector count s))
  = [EvCommand pdrv cmd addr (fst r)]
  /\ filter (sends ACMD23) (snd (disk_write pdrv buff sector count s))
     = (if announce then [EvCommand pdrv ACMD23 count (fst r23)] else []).
Proof.
  intros ct addr announce cmd r23 r. subst r r23 cmd announce.
  unfold disk_write. run_bus. fold ct addr.
  destruct (count =? 1); cbn [negb andb].
  - destruct (SendCommand_t pdrv CMD24 addr (bus s)) as [r c]. cbn [fst snd].
    destruct (r =? 0).
    + cbn [fst snd bus CardType].
      destruct (SendBlock_t pdrv (Some (sector_at buff 0)) 254 c) as [rb cb].
      destruct (negb (rb =? 0));
        try match goal with |- context [negb (count =? ?i)] =>
          destruct (negb (count =? i)) end; split; reflexivity.
    + destruct (negb (count =? 0)); split; reflexivity.
  - destruct (negb (Z.land ct CT_SDC =? 0));
      [destruct (SendCommand_t pdrv ACMD23 count (bus s)) as [r23 c23]|];
      cbn [fst snd bus CardType];
      match goal with |- context [SendCommand_t pdrv CMD25 addr ?c0] =>
        destruct (SendCommand_t pdrv CMD25 addr c0) as [r c]
      end;
      cbn [fst snd bus CardType];
      (destruct (r =? 0);
       [| destruct (negb (count =? 0)); split; reflexivity]);
      (match goal with |- context [write_loop ?n ?i ?p ?b ?o ?s0] =>
         pose proof (write_loop_trace p b n i o s0) as Hloop;
         destruct (write_loop n i p b o s0) as [[i1 s1] t1];
         destruct Hloop as (_ & _ & Hnone)
       end);
      (destruct (SendBlock_t pdrv None 253 (bus s1)) as [rs cs]);
      cbn [fst snd bus CardType];
      (destruct (rs =? 0));
      (match goal with |- context [negb (count =? ?i)] =>
         destruct (negb (count =? i)) end);
      cbn [snd app]; rewrite ?app_nil_r;
      repeat progress (rewrite ?filter_app; cbn [filter sends command_eqb app]);
      rewrite ?(Hnone CMD25), ?(Hnone ACMD23); split; reflexivity.
Qed.

(** C3, as the code has it.  There is one [CardType] for all drives:
    [disk_initialize] on drive [d1] overwrites it with what it finds on
    [d1], and a read or a write on any drive [d2] afterwards takes its
    addressing, and the announcement of the sector count, from that
    value: the read command and the write command, CMD24 or CMD25, are
    each sent once and carry the address that value gives, and ACMD23 is
    sent exactly when that value has an SD bit and the write is not of one
    sector. *)
Theorem card_type_is_shared
    (d1 d2 sector count : Z) (buff : list Z) (s : state card) :
  let s1 := snd (fst (disk_initialize d1 s)) in
  let ct := CardType s1 in
  let addr := sd_address ct sector in
  let rd := if 1 <? count then CMD18 else CMD17 in
  let wr :=
    if count =? 1 then (CMD24, addr)
    else if Z.land ct CT_SDC =? 0 then (CMD25, addr)
    else (ACMD23, count) in
  let announce := negb (count =? 1) && negb (Z.land ct CT_SDC =? 0) in
  let wcmd := if count =? 1 then CMD24 else CMD25 in
  let r23 := SendCommand_t d2 ACMD23 count (bus s1) in
  let rw := SendCommand_t d2 wcmd addr (if announce then snd r23 else bus s1) in
  ct = fst (fst (classify d1
                   {| bus := woken d1 (bus s); CardType := CardType s |}))
  /\ hd_error (snd (disk_read d2 buff sector count s1))
     = Some (EvCommand d2 rd addr (fst (SendCommand_t d2 rd addr (bus s1))))
  /\ hd_error (snd (disk_write d2 buff sector count s1))
     = Some (EvCommand d2 (fst wr) (snd wr)
               (fst (SendCommand_t d2 (fst wr) (snd wr) (bus s1))))
  /\ filter (sends rd) (snd (disk_read d2 buff sector count s1))
     = [EvCommand d2 rd addr (fst (SendCommand_t d2 rd addr (bus s1)))]
  /\ filter (sends wcmd) (snd (disk_write d2 buff sector count s1))
     = [EvCommand d2 wcmd addr (fst rw)]
  /\ filter (sends ACMD23) (snd (disk_write d2 buff sector count s1))
     = (if announce then [EvCommand d2 ACMD23 count (fst r23)] else []).
Proof.
  intros s1 ct addr rd wr announce wcmd r23 rw.
  split; [apply (disk_initialize_classify d1 s)|].
  split; [apply disk_read_first|].
  split; [apply disk_write_first|].
  split; [apply disk_read_commands|].
  apply disk_write_commands.
Qed.

(** ** More on initialisation *)

Lemma dummy_clocks_trace (pdrv : Z) (n : nat) :
  forall s,
    List.length (snd (dummy_clocks n pdrv s)) = n
    /\ Forall (fun e => exists d, e = EvReceive pdrv 1 d)
         (snd (dummy_clocks n pdrv s)).
Proof.
  induction n as [|n IH]; intros s.
  - cbn. auto.
  - cbn [dummy_clocks]. run_bus.
    destruct (ReceiveSD_t pdrv 1 (bus s)) as [d c].
    specialize (IH {| bus := c; CardType := CardType s |}).
    destruct (dummy_clocks n pdrv _) as [[u s'] t].
    cbn [snd app List.length] in *. destruct IH as [Hlen Hall].
    split; [now rewrite Hlen|]. constructor; [now eexists | exact Hall].
Qed.

Lemma receives_no_release (pdrv : Z) (t : list event) :
  Forall (fun e => exists d, e = EvReceive pdrv 1 d) t -> releases t = 0%nat.
Proof.
  induction 1 as [|e t (d & ->) _ IH]; [reflexivity | exact IH].
Qed.

Lemma poll_loop_trace (pdrv : Z) (cmd : command) (arg : Z) (n : nat) :
  forall i s,
    releases (snd (poll_loop n i pdrv cmd arg s)) = 0%nat
    /\ (forall other, other <> cmd ->
          filter (sends other) (snd (poll_loop n i pdrv cmd arg s)) = []).
Proof.
  induction n as [|n IH]; intros i s.
  - cbn. auto.
  - cbn [poll_loop]. run_bus.
    destruct (SendCommand_t pdrv cmd arg (bus s)) as [r c].
    assert (Hother : forall other, other <> cmd -> command_eqb cmd other = false).
    { intros other Hne. destruct cmd, other; try reflexivity; congruence. }
    destruct (r =? 0).
    + cbn. split; [reflexivity|]. intros other Hne. now rewrite Hother.
    + specialize (IH (i + 1) {| bus := c; CardType := CardType s |}).
      destruct (poll_loop n _ _ _ _ _) as [[j s'] t].
      cbn [snd app] in *. destruct IH as [Hrel Hsends].
      split; [exact Hrel|]. intros other Hne. cbn [filter sends].
      rewrite Hother by assumption. now apply Hsends.
Qed.

(** Takes [classify] apart, path by path. *)
Ltac walk :=
  repeat first
    [ match goal with
      | |- context [poll_loop ?n ?i ?p ?c ?a ?s0] =>
          let H := fresh "Hpoll" in
          pose proof (poll_loop_trace p c a n i s0) as H;
          destruct (poll_loop n i p c a s0) as [[? ?] ?];
          cbn [fst snd bus CardType] in H |- *
      end
    | answer
    | match goal with
      | |- context [if ?b then _ else _] =>
          destruct b eqn:?; cbn [fst snd bus CardType negb]
      end ].

(** X7.  Whatever the card and the bus do, [disk_initialize] leaves one of
    five card types: none, MMC, SDv1, SDv2, or SDv2 with block addressing;
    the block bit never comes without SDv2.  Its status is [STA_NOINIT]
    for none and 0 otherwise. *)
Theorem initialize_card_types (pdrv : Z) (s : state card) :
  let type := CardType (snd (fst (disk_initialize pdrv s))) in
  let status := fst (fst (disk_initialize pdrv s)) in
  In type [0; CT_MMC; CT_SDC1; CT_SDC2; Z.lor CT_SDC2 CT_BLOCK]
  /\ (status = STA_NOINIT <-> type = 0)
  /\ (status = 0 <-> type <> 0).
Proof.
  intros type status. subst type status.
  destruct (disk_initialize_classify pdrv s) as (-> & ->).
  set (s1 := {| bus := woken pdrv (bus s); CardType := CardType s |}).
  assert (Hin : In (fst (fst (classify pdrv s1)))
                  [0; CT_MMC; CT_SDC1; CT_SDC2; Z.lor CT_SDC2 CT_BLOCK]).
  { unfold classify. set (N := Z.to_nat POLL_LIMIT). run_bus. walk;
      cbn [fst In]; auto 10. }
  split; [exact Hin|].
  cbn [In] in Hin.
  destruct Hin as [<-|[<-|[<-|[<-|[<-|[]]]]]];
    (split; split; intros H; try reflexivity; try discriminate H;
     try (exfalso; apply H; reflexivity); try (intros H'; discriminate H')).
Qed.

(** [disk_initialize] around [classify]: enable, a hundred clocks, the
    classification, release. *)
Lemma disk_initialize_run (pdrv : Z) (s : state card) :
  let s0 := {| bus := EnableSD_t pdrv (bus s); CardType := CardType s |} in
  let s1 := {| bus := woken pdrv (bus s); CardType := CardType s |} in
  disk_initialize pdrv s
  = (let '(type, s2, t2) := classify pdrv s1 in
     (if type =? 0 then STA_NOINIT else 0,
      {| bus := ReleaseSD_t pdrv (bus s2); CardType := type |},
      EvEnable pdrv :: snd (dummy_clocks 100 pdrv s0) ++ t2 ++ [EvRelease pdrv])).
Proof.
  intros s0 s1. unfold disk_initialize. run_bus. fold s0.
  pose proof (dummy_clocks_run pdrv 100 s0) as Hclk.
  destruct (dummy_clocks 100 pdrv s0) as [[u s'] t1].
  assert (Hs' : s' = s1) by (apply (f_equal snd) in Hclk; exact Hclk).
  subst s'. destruct u. clear Hclk.
  destruct (classify pdrv s1) as [[type s2] t2].
  destruct (type =? 0); cbn [app]; rewrite ?app_nil_r; reflexivity.
Qed.

Lemma classify_no_release (pdrv : Z) (s : state card) :
  releases (snd (classify pdrv s)) = 0%nat.
Proof.
  unfold classify. set (N := Z.to_nat POLL_LIMIT). run_bus. walk;
    cbn [snd]; rewrite ?releases_app;
    repeat match goal with
           | H : releases _ = 0%nat /\ _ |- _ =>
               let E := fresh in destruct H as [E _]; rewrite E
           end;
    reflexivity.
Qed.

Lemma poll_loop_no_clock (pdrv : Z) (cmd : command) (arg : Z) (n : nat) :
  forall i s, filter is_clock (snd (poll_loop n i pdrv cmd arg s)) = [].
Proof.
  induction n as [|n IH]; intros i s; [reflexivity|].
  cbn [poll_loop]. run_bus.
  destruct (SendCommand_t pdrv cmd arg (bus s)) as [r c].
  destruct (r =? 0); [reflexivity|].
  specialize (IH (i + 1) {| bus := c; CardType := CardType s |}).
  destruct (poll_loop n _ _ _ _ _) as [[j s'] t]. exact IH.
Qed.

(** [classify] begins with CMD0 and receives no single byte. *)
Lemma classify_begins_with_cmd0 (pdrv : Z) (s : state card) :
  exists rest,
    snd (classify pdrv s)
    = EvCommand pdrv CMD0 0 (fst (SendCommand_t pdrv CMD0 0 (bus s))) :: rest
    /\ filter is_clock rest = [].
Proof.
  unfold classify. set (N := Z.to_nat POLL_LIMIT). run_bus.
  destruct (SendCommand_t pdrv CMD0 0 (bus s)) as [r0 c0].
  cbn [fst snd bus CardType].
  repeat first
    [ match goal with
      | |- context [poll_loop ?n ?i ?p ?c ?a ?s0] =>
          let H := fresh "Hpoll" in
          pose proof (poll_loop_no_clock p c a n i s0) as H;
          destruct (poll_loop n i p c a s0) as [[? ?] ?];
          cbn [fst snd bus CardType] in H |- *
      end
    | answer
    | match goal with
      | |- context [if ?b then _ else _] =>
          destruct b eqn:?; cbn [fst snd bus CardType negb]
      end ];
    cbn [snd app]; eexists; (split; [reflexivity|]);
    repeat progress (rewrite ?filter_app; cbn [filter is_clock Nat.eqb app]);
    repeat match goal with H : filter is_clock _ = [] |- _ => rewrite H end;
    reflexivity.
Qed.

(** X6.  Every initialisation, whatever its outcome, is: enable the card,
    clock exactly a hundred single bytes, send CMD0, and whatever follows.
    No single byte is received after CMD0, and chip select is released
    exactly once, as the last act on the bus. *)
Theorem initialize_brackets_bus (pdrv : Z) (s : state card) :
  (exists clocks rest,
     snd (disk_initialize pdrv s)
     = EvEnable pdrv :: clocks
       ++ EvCommand pdrv CMD0 0
            (fst (SendCommand_t pdrv CMD0 0 (woken pdrv (bus s)))) :: rest
     /\ List.length clocks = 100%nat
     /\ Forall (fun e => exists d, e = EvReceive pdrv 1 d) clocks
     /\ filter is_clock rest = [])
  /\ List.length (filter is_clock (snd (disk_initialize pdrv s))) = 100%nat
  /\ released_once pdrv (snd (disk_initialize pdrv s)).
Proof.
  rewrite disk_initialize_run.
  pose proof (classify_no_release pdrv
                {| bus := woken pdrv (bus s); CardType := CardType s |}) as Hcl.
  destruct (classify_begins_with_cmd0 pdrv
              {| bus := woken pdrv (bus s); CardType := CardType s |})
    as (rest & Hshape & Hrest).
  cbn [bus] in Hshape.
  destruct (classify pdrv _) as [[type s2] t2]. cbn [snd] in *.
  destruct (dummy_clocks_trace pdrv 100
              {| bus := EnableSD_t pdrv (bus s); CardType := CardType s |})
    as [Hlen Hall].
  set (clocks := snd (dummy_clocks 100 pdrv
                        {| bus := EnableSD_t pdrv (bus s);
                           CardType := CardType s |})) in *.
  assert (Hclocks : filter is_clock clocks = clocks).
  { clear Hlen. induction Hall as [|e t (d & ->) _ IH]; [reflexivity|].
    cbn [filter is_clock Nat.eqb]. now rewrite IH. }
  split; [|split].
  - exists clocks, (rest ++ [EvRelease pdrv]). rewrite Hshape.
    split; [reflexivity|]. split; [exact Hlen|]. split; [exact Hall|].
    rewrite filter_app, Hrest. reflexivity.
  - rewrite Hshape.
    repeat progress (rewrite ?filter_app; cbn [filter is_clock app]).
    rewrite Hclocks, Hrest, app_nil_r. exact Hlen.
  - apply released_once_cons; [reflexivity|].
    apply released_once_app; [now apply (receives_no_release pdrv)|].
    apply released_once_app; [exact Hcl|]. apply released_once_last.
Qed.

(** X9.  When CMD0 is not answered 1 nothing else is tried: the card is
    released, the card type is 0 and the status is [STA_NOINIT]. *)
Theorem initialize_no_card (pdrv : Z) (s : state card) :
  let r0 := SendCommand_t pdrv CMD0 0 (woken pdrv (bus s)) in
  fst r0 <> 1 ->
  disk_initialize pdrv s
  = (STA_NOINIT,
     {| bus := ReleaseSD_t pdrv (snd r0); CardType := 0 |},
     EvEnable pdrv
     :: snd (dummy_clocks 100 pdrv
               {| bus := EnableSD_t pdrv (bus s); CardType := CardType s |})
     ++ [EvCommand pdrv CMD0 0 (fst r0); EvRelease pdrv]).
Proof.
  intros r0 Hr0. subst r0. rewrite disk_initialize_run.
  unfold classify. run_bus.
  destruct (SendCommand_t pdrv CMD0 0 (woken pdrv (bus s))) as [r c].
  cbn [fst snd] in *. apply Z.eqb_neq in Hr0. rewrite Hr0. reflexivity.
Qed.

(** X10.  A card that answers CMD0 and CMD8 but does not echo 0x01, 0xAA
    is given up at once: no ACMD41 and no CMD1 is sent, the card type is 0
    and the status is [STA_NOINIT]. *)
Theorem initialize_wrong_echo
    (pdrv : Z) (s : state card) (c2 c3 c4 : card) (echo : list Z) :
  SendCommand_t pdrv CMD0 0 (woken pdrv (bus s)) = (1, c2) ->
  SendCommand_t pdrv CMD8 426 c2 = (1, c3) ->
  ReceiveSD_t pdrv 4 c3 = (echo, c4) ->
  nth 2 (block 4 echo) 0 <> 1 \/ nth 3 (block 4 echo) 0 <> 170 ->
  disk_initialize pdrv s
  = (STA_NOINIT,
     {| bus := ReleaseSD_t pdrv c4; CardType := 0 |},
     EvEnable pdrv
     :: snd (dummy_clocks 100 pdrv
               {| bus := EnableSD_t pdrv (bus s); CardType := CardType s |})
     ++ [EvCommand pdrv CMD0 0 1; EvCommand pdrv CMD8 426 1;
         EvReceive pdrv 4 (block 4 echo); EvRelease pdrv]).
Proof.
  intros H0 H8 Hecho Hbad. rewrite disk_initialize_run.
  unfold classify. run_bus. rewrite H0. cbn [Z.eqb Pos.eqb fst snd bus CardType].
  rewrite H8. cbn [Z.eqb Pos.eqb fst snd bus CardType]. rewrite Hecho.
  cbn [fst snd bus CardType].
  replace ((nth 2 (block 4 echo) 0 =? 1) && (nth 3 (block 4 echo) 0 =? 170))
    with false; [reflexivity|].
  symmetry. apply andb_false_iff.
  destruct Hbad as [H|H]; [left | right]; now apply Z.eqb_neq.
Qed.

(** X11.  An SDv2 card that becomes ready but does not acknowledge CMD58
    is left untyped: card type 0, status [STA_NOINIT]. *)
Theorem initialize_ocr_refused
    (pdrv r58 : Z) (s : state card) (c2 c3 c4 c5 c6 : card) (echo : list Z) :
  SendCommand_t pdrv CMD0 0 (woken pdrv (bus s)) = (1, c2) ->
  SendCommand_t pdrv CMD8 426 c2 = (1, c3) ->
  ReceiveSD_t pdrv 4 c3 = (echo, c4) ->
  nth 2 (block 4 echo) 0 = 1 ->
  nth 3 (block 4 echo) 0 = 170 ->
  ready_within (Z.to_nat POLL_LIMIT) pdrv ACMD41 (Z.shiftl 1 30) c4 = Some c5 ->
  SendCommand_t pdrv CMD58 0 c5 = (r58, c6) ->
  r58 <> 0 ->
  fst (disk_initialize pdrv s)
  = (STA_NOINIT, {| bus := ReleaseSD_t pdrv c6; CardType := 0 |}).
Proof.
  intros H0 H8 Hecho E2 E3 Hready H58 Hr58. rewrite disk_initialize_run.
  unfold classify.
  pose proof poll_limit_nat as Hlimit.
  set (N := Z.to_nat POLL_LIMIT) in *.
  run_bus. rewrite H0. cbn [Z.eqb Pos.eqb fst snd bus CardType].
  rewrite H8. cbn [Z.eqb Pos.eqb fst snd bus CardType].
  rewrite Hecho. cbn [fst snd bus CardType].
  rewrite E2, E3. cbn [Z.eqb Pos.eqb andb].
  destruct (poll_loop_ready pdrv ACMD41 (Z.shiftl 1 30) N 0
              {| bus := c4; CardType := CardType s |} c5 Hready) as [Hs Hi].
  destruct (poll_loop N 0 pdrv ACMD41 _ _) as [[i s'] t].
  cbn [fst snd bus CardType] in Hs, Hi. subst s'. rewrite Hlimit in Hi.
  replace (i <? POLL_LIMIT) with true by (symmetry; apply Z.ltb_lt; lia).
  cbn [fst snd bus CardType]. rewrite H58.
  apply Z.eqb_neq in Hr58. rewrite Hr58. reflexivity.
Qed.

(** X8.  A card that answers CMD0 but not CMD8 is a legacy card: SDv1,
    polled with ACMD41, when it answers the first ACMD41 with 0 or 1, and
    MMC, polled with CMD1, otherwise.  Once it is ready the type stands
    if CMD16 sets the block length to 512, and is 0 if CMD16 fails. *)
Theorem initialize_legacy
    (pdrv r8 r41 r16 : Z) (s : state card) (c2 c3 c4 c5 c6 : card) :
  SendCommand_t pdrv CMD0 0 (woken pdrv (bus s)) = (1, c2) ->
  SendCommand_t pdrv CMD8 426 c2 = (r8, c3) ->
  r8 <> 1 ->
  SendCommand_t pdrv ACMD41 0 c3 = (r41, c4) ->
  ready_within (Z.to_nat POLL_LIMIT) pdrv
    (if r41 <=? 1 then ACMD41 else CMD1) 0 c4 = Some c5 ->
  SendCommand_t pdrv CMD16 512 c5 = (r16, c6) ->
  let type :=
    if r16 =? 0 then (if r41 <=? 1 then CT_SDC1 else CT_MMC) else 0 in
  fst (disk_initialize pdrv s)
  = (if r16 =? 0 then 0 else STA_NOINIT,
     {| bus := ReleaseSD_t pdrv c6; CardType := type |}).
Proof.
  intros H0 H8 Hr8 H41 Hready H16 type. subst type.
  rewrite disk_initialize_run. unfold classify.
  pose proof poll_limit_nat as Hlimit.
  set (N := Z.to_nat POLL_LIMIT) in *.
  run_bus. rewrite H0. cbn [Z.eqb Pos.eqb fst snd bus CardType].
  rewrite H8. apply Z.eqb_neq in Hr8. rewrite Hr8.
  cbn [fst snd bus CardType]. rewrite H41. cbn [fst snd bus CardType].
  destruct (r41 <=? 1);
    match goal with
    | |- context [poll_loop N 0 pdrv ?cmd 0 ?s0] =>
        destruct (poll_loop_ready pdrv cmd 0 N 0 s0 c5 Hready) as [Hs Hi];
        destruct (poll_loop N 0 pdrv cmd 0 s0) as [[i s'] t]
    end;
    cbn [fst snd bus CardType] in Hs, Hi; subst s'; rewrite Hlimit in Hi;
    (replace (i =? POLL_LIMIT) with false by (symmetry; apply Z.eqb_neq; lia));
    cbn [fst snd bus CardType]; rewrite H16;
    destruct (r16 =? 0); reflexivity.
Qed.

(** ** More on reading, writing and control *)

(** X12.  Only [disk_initialize] writes [CardType]: a read, a write or a
    control call, failing or not, returns with the card type it found. *)
Theorem card_type_kept
    (pdrv sector count ctrl word : Z) (buff : list Z) (s : state card) :
  CardType (snd (fst (disk_read pdrv buff sector count s))) = CardType s
  /\ CardType (snd (fst (disk_write pdrv buff sector count s))) = CardType s
  /\ CardType (snd (fst (disk_ioctl pdrv ctrl word s))) = CardType s.
Proof.
  split; [|split].
  - unfold disk_read. run_bus. answer.
    destruct (r =? 0).
    + pose proof (read_loop_trace pdrv (Z.to_nat count) 0 buff 0%nat
                    {| bus := c; CardType := CardType s |}) as Hloop.
      destruct (read_loop _ _ _ _ _ _) as [[[i b] s1] t1].
      destruct Hloop as (Hct & _ & _). cbn [CardType] in Hct.
      destruct (command_eqb _ CMD18); [answer|];
        destruct (negb (i =? count)); exact Hct.
    + destruct (negb (0 =? count)); reflexivity.
  - unfold disk_write. run_bus.
    destruct (count =? 1).
    + answer. destruct (r =? 0).
      * answer. destruct (negb (r0 =? 0)), (negb (count =? 1)),
          (negb (count =? 0)); reflexivity.
      * destruct (negb (count =? 0)); reflexivity.
    + destruct (negb (Z.land (CardType s) CT_SDC =? 0)); [answer|];
        answer;
        (match goal with |- context [if ?r =? 0 then _ else _] =>
           destruct (r =? 0) end;
         [| destruct (negb (count =? 0)); reflexivity]);
        (match goal with |- context [write_loop ?n ?i ?p ?b ?o ?s0] =>
           pose proof (write_loop_trace p b n i o s0) as Hloop;
           destruct (write_loop n i p b o s0) as [[i1 s1] t1];
           destruct Hloop as (Hct & _ & _); cbn [CardType] in Hct
         end);
        answer;
        (match goal with |- context [if ?r =? 0 then _ else _] =>
           destruct (r =? 0) end);
        (match goal with |- context [negb (count =? ?i)] =>
           destruct (negb (count =? i)) end);
        exact Hct.
  - unfold disk_ioctl. run_bus.
    destruct (ctrl =? CTRL_SYNC).
    { answer. destruct (negb (r =? 0)); reflexivity. }
    destruct (ctrl =? GET_SECTOR_COUNT).
    { answer. destruct (r =? 0); [|reflexivity].
      answer. destruct (negb (r0 =? 0)); [|reflexivity].
      destruct (negb (Z.land (nth 0 (block 16 d) 0) 32 =? 0)); reflexivity. }
    destruct (ctrl =? GET_BLOCK_SIZE); reflexivity.
Qed.

(** X13.  When the read command is not acknowledged nothing is received:
    the buffer comes back as it was, the card is released, and the call
    fails unless no sector was asked for. *)
Theorem disk_read_rejected
    (pdrv sector count : Z) (buff : list Z) (s : state card) :
  let cmd := if 1 <? count then CMD18 else CMD17 in
  let addr := sd_address (CardType s) sector in
  let r := SendCommand_t pdrv cmd addr (bus s) in
  fst r <> 0 ->
  disk_read pdrv buff sector count s
  = ((if count =? 0 then RES_OK else RES_ERROR, buff),
     {| bus := ReleaseSD_t pdrv (snd r); CardType := CardType s |},
     [EvCommand pdrv cmd addr (fst r); EvRelease pdrv]).
Proof.
  intros cmd addr r Hr. subst r. unfold disk_read. run_bus. fold cmd addr.
  destruct (SendCommand_t pdrv cmd addr (bus s)) as [r c]. cbn [fst snd] in *.
  apply Z.eqb_neq in Hr. rewrite Hr. rewrite (Z.eqb_sym 0 count).
  destruct (count =? 0); reflexivity.
Qed.

(** X15.  When the write command, CMD24 or CMD25, is not acknowledged no
    block and no stop token is sent; the call fails unless no sector was
    to be written. *)
Theorem disk_write_rejected
    (pdrv sector count : Z) (buff : list Z) (s : state card) :
  let ct := CardType s in
  let addr := sd_address ct sector in
  let announce := negb (count =? 1) && negb (Z.land ct CT_SDC =? 0) in
  let r23 := SendCommand_t pdrv ACMD23 count (bus s) in
  let cmd := if count =? 1 then CMD24 else CMD25 in
  let r := SendCommand_t pdrv cmd addr (if announce then snd r23 else bus s) in
  fst r <> 0 ->
  disk_write pdrv buff sector count s
  = (if count =? 0 then RES_OK else RES_ERROR,
     {| bus := ReleaseSD_t pdrv (snd r); CardType := ct |},
     (if announce then [EvCommand pdrv ACMD23 count (fst r23)] else [])
     ++ [EvCommand pdrv cmd addr (fst r); EvRelease pdrv]).
Proof.
  intros ct addr announce r23 cmd r Hr. subst r cmd r23 announce.
  unfold disk_write. run_bus. fold ct addr.
  destruct (Z.eqb_spec count 1) as [->|Hone]; cbn [negb andb] in *.
  - destruct (SendCommand_t pdrv CMD24 addr (bus s)) as [r c].
    cbn [fst snd] in *. apply Z.eqb_neq in Hr. rewrite Hr. reflexivity.
  - destruct (negb (Z.land ct CT_SDC =? 0)).
    + destruct (SendCommand_t pdrv ACMD23 count (bus s)) as [r23 c23].
      cbn [fst snd bus CardType] in *.
      destruct (SendCommand_t pdrv CMD25 addr c23) as [r c].
      cbn [fst snd] in *. apply Z.eqb_neq in Hr. rewrite Hr.
      destruct (count =? 0); reflexivity.
    + destruct (SendCommand_t pdrv CMD25 addr (bus s)) as [r c].
      cbn [fst snd] in *. apply Z.eqb_neq in Hr. rewrite Hr.
      destruct (count =? 0); reflexivity.
Qed.

(** X16.  A write of one sector is CMD24 and, when that is acknowledged,
    the first 512 bytes of the buffer under token 0xFE.  It succeeds
    exactly when both are accepted, and never sends ACMD23, CMD25 or a
    stop token. *)
Theorem disk_write_single
    (pdrv sector : Z) (buff : list Z) (s : state card) :
  let ct := CardType s in
  let addr := sd_address ct sector in
  let r24 := SendCommand_t pdrv CMD24 addr (bus s) in
  let rb := SendBlock_t pdrv (Some (sector_at buff 0)) 254 (snd r24) in
  disk_write pdrv buff sector 1 s
  = if fst r24 =? 0 then
      (if fst rb =? 0 then RES_ERROR else RES_OK,
       {| bus := ReleaseSD_t pdrv (snd rb); CardType := ct |},
       [EvCommand pdrv CMD24 addr 0;
        EvSendBlock pdrv (Some (sector_at buff 0)) 254 (fst rb);
        EvRelease pdrv])
    else
      (RES_ERROR,
       {| bus := ReleaseSD_t pdrv (snd r24); CardType := ct |},
       [EvCommand pdrv CMD24 addr (fst r24); EvRelease pdrv]).
Proof.
  intros ct addr r24 rb. subst rb r24. unfold disk_write. run_bus.
  fold ct addr. cbn [Z.eqb Pos.eqb].
  destruct (SendCommand_t pdrv CMD24 addr (bus s)) as [r c]. cbn [fst snd].
  destruct (Z.eqb_spec r 0) as [->|Hr]; [|reflexivity].
  cbn [fst snd bus CardType].
  destruct (SendBlock_t pdrv (Some (sector_at buff 0)) 254 c) as [rb cb].
  cbn [fst snd]. destruct (rb =? 0); reflexivity.
Qed.

(** X18.  The control codes that need no command: [GET_BLOCK_SIZE] stores
    128; [CTRL_SYNC] succeeds exactly when the card can be selected and
    stores nothing; any code other than these and [GET_SECTOR_COUNT] is a
    parameter error and stores nothing.  None of them sends a command. *)
Theorem disk_ioctl_simple_codes
    (pdrv ctrl word : Z) (s : state card) :
  let released c := {| bus := ReleaseSD_t pdrv c; CardType := CardType s |} in
  let sel := SelectSD_t pdrv (bus s) in
  (ctrl = GET_BLOCK_SIZE ->
   disk_ioctl pdrv ctrl word s
   = ((RES_OK, 128), released (bus s), [EvRelease pdrv]))
  /\ (ctrl = CTRL_SYNC ->
      disk_ioctl pdrv ctrl word s
      = ((if fst sel =? 0 then RES_ERROR else RES_OK, word),
         released (snd sel), [EvSelect pdrv (fst sel); EvRelease pdrv]))
  /\ (ctrl <> CTRL_SYNC -> ctrl <> GET_SECTOR_COUNT -> ctrl <> GET_BLOCK_SIZE ->
      disk_ioctl pdrv ctrl word s
      = ((RES_PARERR, word), released (bus s), [EvRelease pdrv])).
Proof.
  intros released sel. subst released sel. repeat split.
  - intros ->. reflexivity.
  - intros ->. unfold disk_ioctl. run_bus. cbn [Z.eqb CTRL_SYNC].
    destruct (SelectSD_t pdrv (bus s)) as [r c]. cbn [fst snd].
    destruct (r =? 0); reflexivity.
  - intros H0 H1 H3. unfold disk_ioctl. run_bus.
    apply Z.eqb_neq in H0, H1, H3. rewrite H0, H1, H3. reflexivity.
Qed.

(** X19.  [GET_SECTOR_COUNT] stores nothing when it fails: with CMD9
    refused, or with the CSD not received, the result is [RES_ERROR] and
    the caller's word is as it was. *)
Theorem get_sector_count_failure
    (pdrv word : Z) (s : state card) :
  let r9 := SendCommand_t pdrv CMD9 0 (bus s) in
  let csd := ReceiveBlock_t pdrv 16 (snd r9) in
  (fst r9 <> 0 ->
   disk_ioctl pdrv GET_SECTOR_COUNT word s
   = ((RES_ERROR, word),
      {| bus := ReleaseSD_t pdrv (snd r9); CardType := CardType s |},
      [EvCommand pdrv CMD9 0 (fst r9); EvRelease pdrv]))
  /\ (fst r9 = 0 -> snd (fst csd) = 0 ->
      disk_ioctl pdrv GET_SECTOR_COUNT word s
      = ((RES_ERROR, word),
         {| bus := ReleaseSD_t pdrv (snd csd); CardType := CardType s |},
         [EvCommand pdrv CMD9 0 0;
          EvReceiveBlock pdrv 16 (block 16 (fst (fst csd))) 0;
          EvRelease pdrv])).
Proof.
  intros r9 csd. subst csd r9. unfold disk_ioctl. run_bus.
  change (GET_SECTOR_COUNT =? CTRL_SYNC) with false.
  change (GET_SECTOR_COUNT =? GET_SECTOR_COUNT) with true. cbv beta iota.
  destruct (SendCommand_t pdrv CMD9 0 (bus s)) as [r c]. cbn [fst snd].
  split.
  - intros Hr. apply Z.eqb_neq in Hr. rewrite Hr. reflexivity.
  - intros -> Hok. cbn [Z.eqb fst snd bus CardType].
    destruct (ReceiveBlock_t pdrv 16 c) as [[d ok] c']. cbn [fst snd] in *.
    subst ok. reflexivity.
Qed.

(** X21.  The address of a sector: its number on a block-addressed card,
    its byte offset otherwise.  Byte offsets are exact below sector 2^23
    and wrap beyond: sectors 2^23 apart get the same address. *)
Theorem sd_address_modes (ct sector : Z) :
  0 <= sector < 2 ^ 32 ->
  (Z.land ct CT_BLOCK <> 0 -> sd_address ct sector = sector)
  /\ (Z.land ct CT_BLOCK = 0 ->
      (sector < 2 ^ 23 -> sd_address ct sector = 512 * sector)
      /\ sd_address ct sector = sd_address ct (sector mod 2 ^ 23)).
Proof.
  intros Hs. unfold sd_address, to_uint. split.
  - intros Hb. apply Z.eqb_neq in Hb. rewrite Hb. now apply Z.mod_small.
  - intros Hb. rewrite Hb. cbn [Z.eqb]. split.
    + intros Hlow. rewrite (Z.mod_small sector) by assumption.
      rewrite Z.mod_small; lia.
    + rewrite (Z.mod_small sector) by assumption.
      assert (Hm : 0 <= sector mod 2 ^ 23 < 2 ^ 23)
        by (apply Z.mod_pos_bound; lia).
      rewrite (Z.mod_small (sector mod 2 ^ 23)) by lia.
      rewrite (Z.div_mod sector (2 ^ 23)) at 1 by lia.
      replace ((2 ^ 23 * (sector / 2 ^ 23) + sector mod 2 ^ 23) * 512)
        with (sector mod 2 ^ 23 * 512 + (sector / 2 ^ 23) * 2 ^ 32) by lia.
      now rewrite Z.mod_add by lia.
Qed.

(** ** The buffer of a read *)

Lemma block_length (len : nat) (data : list Z) :
  List.length (block len data) = len.
Proof.
  unfold block.
  rewrite length_map, length_firstn, length_app, repeat_length. lia.
Qed.

Section Store.

Variables (buff blk : list Z) (off : nat).
Hypothesis room : (off + List.length blk <= List.length buff)%nat.

Lemma store_length : List.length (store buff off blk) = List.length buff.
Proof.
  unfold store. rewrite !length_app, length_firstn, length_skipn. lia.
Qed.

Lemma store_before : firstn off (store buff off blk) = firstn off buff.
Proof.
  unfold store. rewrite firstn_app, firstn_firstn, length_firstn.
  replace (off - Nat.min off (List.length buff))%nat with 0%nat by lia.
  rewrite Nat.min_id. cbn [firstn]. apply app_nil_r.
Qed.

Lemma store_through :
  firstn (off + List.length blk) (store buff off blk) = firstn off buff ++ blk.
Proof.
  unfold store. rewrite firstn_app, length_firstn.
  rewrite (firstn_all2 (n := off + List.length blk) (firstn off buff))
    by (rewrite length_firstn; lia).
  f_equal.
  replace (off + List.length blk - Nat.min off (List.length buff))%nat
    with (List.length blk) by lia.
  rewrite firstn_app, Nat.sub_diag, firstn_all. cbn [firstn]. apply app_nil_r.
Qed.

Lemma store_after (m : nat) :
  skipn (off + List.length blk + m) (store buff off blk)
  = skipn (off + List.length blk + m) buff.
Proof.
  unfold store. rewrite skipn_app, length_firstn.
  rewrite (skipn_all2 (n := off + List.length blk + m) (firstn off buff))
    by (rewrite length_firstn; lia).
  replace (off + List.length blk + m - Nat.min off (List.length buff))%nat
    with (List.length blk + m)%nat by lia.
  rewrite skipn_app, (skipn_all2 (n := List.length blk + m) blk) by lia.
  replace (List.length blk + m - List.length blk)%nat with m by lia.
  cbn [app]. rewrite skipn_skipn. f_equal. lia.
Qed.

End Store.

Lemma firstn_plus (A : Type) (a b : nat) (l : list A) :
  firstn (a + b) l = firstn a l ++ firstn b (skipn a l).
Proof.
  rewrite <- (firstn_skipn a l) at 1.
  rewrite firstn_app.
  destruct (Nat.le_gt_cases a (List.length l)) as [Hle|Hgt].
  - rewrite length_firstn, Nat.min_l by assumption.
    rewrite (firstn_all2 (n := a + b) (firstn a l))
      by (rewrite length_firstn; lia).
    f_equal. f_equal. lia.
  - rewrite (firstn_all2 (n := a) l) by lia.
    rewrite (firstn_all2 (n := a + b) l) by lia.
    rewrite skipn_all2 by lia. now rewrite !firstn_nil.
Qed.

Lemma read_loop_fill (pdrv : Z) (n : nat) :
  forall i buff off s,
    (off + 512 * n <= List.length buff)%nat ->
    let '(i', buff', _, t) := read_loop n i pdrv buff off s in
    List.length buff' = List.length buff
    /\ firstn off buff' = firstn off buff
    /\ skipn (off + 512 * n) buff' = skipn (off + 512 * n) buff
    /\ i <= i' <= i + Z.of_nat n
    /\ (i' = i + Z.of_nat n ->
        firstn (512 * n) (skipn off buff') = flat_map received t).
Proof.
  induction n as [|n IH]; intros i buff off s Hroom.
  - cbn [read_loop]. unfold ret.
    replace (512 * 0)%nat with 0%nat by lia.
    repeat split; try reflexivity; lia.
  - cbn [read_loop]. run_bus.
    destruct (ReceiveBlock_t pdrv 512 (bus s)) as [[d r] c]. cbn [fst snd].
    pose proof (block_length 512 d) as Hblk.
    set (blk := block 512 d) in *.
    assert (Hroom1 : (off + List.length blk <= List.length buff)%nat) by lia.
    pose proof (store_length buff blk off Hroom1) as Hlen.
    pose proof (store_before buff blk off Hroom1) as Hbefore.
    pose proof (store_through buff blk off Hroom1) as Hthrough.
    pose proof (store_after buff blk off Hroom1 (512 * n)) as Hafter.
    rewrite Hblk in Hthrough, Hafter.
    set (buff1 := store buff off blk) in *.
    replace (off + 512 * S n)%nat with (off + 512 + 512 * n)%nat by lia.
    destruct (Z.eqb_spec r 0) as [->|Hr].
    + cbn [fst snd app]. repeat split; try assumption; lia.
    + specialize (IH (i + 1) buff1 (off + 512)%nat
                     {| bus := c; CardType := CardType s |}
                     ltac:(lia)).
      destruct (read_loop n _ _ _ _ _) as [[[i' buff'] s'] t'].
      destruct IH as (Hl & Hf & Hs & Hi & Hd).
      cbn [fst snd app flat_map received].
      assert (Hhead : firstn (off + 512) buff' = firstn off buff ++ blk)
        by (now rewrite Hf).
      repeat split; try lia.
      * replace off with (Nat.min off (off + 512)) at 1 by lia.
        rewrite <- firstn_firstn, Hhead, firstn_app, length_firstn.
        replace (off - Nat.min off (List.length buff))%nat with 0%nat by lia.
        cbn [firstn]. rewrite app_nil_r, firstn_firstn. f_equal. lia.
      * now rewrite Hs.
      * intros Hall.
        replace (512 * S n)%nat with (512 + 512 * n)%nat by lia.
        rewrite firstn_plus, skipn_skipn.
        replace (512 + off)%nat with (off + 512)%nat by lia.
        rewrite Hd by lia. f_equal.
        rewrite firstn_skipn_comm, Hhead, skipn_app, length_firstn.
        rewrite (skipn_all2 (n := off) (firstn off buff))
          by (rewrite length_firstn; lia).
        replace (off - Nat.min off (List.length buff))%nat with 0%nat by lia.
        reflexivity.
Qed.

(** X14.  A read writes the first [count] sectors of the buffer and no
    other byte: the buffer keeps its length and everything from offset
    [512 * count] on, also when the read fails; and when the read reports
    [RES_OK] those first sectors are, in order, exactly the blocks the
    card delivered. *)
Theorem disk_read_fills_buffer
    (pdrv sector count : Z) (buff : list Z) (s : state card) :
  (512 * Z.to_nat count <= List.length buff)%nat ->
  let '(res, buff', _, t) := disk_read pdrv buff sector count s in
  List.length buff' = List.length buff
  /\ skipn (512 * Z.to_nat count) buff' = skipn (512 * Z.to_nat count) buff
  /\ (res = RES_OK ->
      buff' = flat_map received t ++ skipn (512 * Z.to_nat count) buff).
Proof.
  intros Hroom. unfold disk_read. run_bus. answer.
  destruct (r =? 0).
  - pose proof (read_loop_fill pdrv (Z.to_nat count) 0 buff 0%nat
                  {| bus := c; CardType := CardType s |} Hroom) as Hloop.
    destruct (read_loop _ _ _ _ _ _) as [[[i b] s1] t1].
    cbn [Nat.add skipn] in Hloop.
    destruct Hloop as (Hlen & _ & Hafter & Hi & Hdata).
    assert (Hfill : i = count ->
              b = flat_map received t1 ++ skipn (512 * Z.to_nat count) buff).
    { intros ->. rewrite <- Hdata by lia. rewrite <- Hafter.
      symmetry. apply firstn_skipn. }
    destruct (command_eqb _ CMD18); [answer|];
      destruct (Z.eqb_spec i count) as [Hic|Hic]; cbn [negb fst snd app];
      rewrite ?app_nil_r; cbn [flat_map received app];
      repeat split; try assumption; try discriminate;
      try (intros _; rewrite ?flat_map_app; cbn [flat_map received app];
           rewrite ?app_nil_r; now apply Hfill).
  - destruct (Z.eqb_spec 0 count) as [<-|Hc]; cbn [negb fst snd app];
      repeat split; discriminate.
Qed.

(** ** The blocks of a write *)

Lemma write_loop_blocks (pdrv : Z) (buff : list Z) (n : nat) :
  forall i off s,
    let t := snd (write_loop n i pdrv buff off s) in
    filter is_data_transfer t = t
    /\ (List.length t <= n)%nat
    /\ (forall k e, nth_error t k = Some e ->
          exists r,
            e = EvSendBlock pdrv (Some (sector_at buff (off + 512 * k))) 252 r).
Proof.
  induction n as [|n IH]; intros i off s.
  - cbn. repeat split; [lia|]. intros [|k] e H; discriminate H.
  - cbn [write_loop]. run_bus.
    destruct (SendBlock_t pdrv (Some (sector_at buff off)) 252 (bus s))
      as [r c].
    assert (Hhere : forall r',
      EvSendBlock pdrv (Some (sector_at buff off)) 252 r'
      = EvSendBlock pdrv (Some (sector_at buff (off + 512 * 0))) 252 r').
    { intros r'. do 3 f_equal. lia. }
    destruct (r =? 0).
    + cbn [snd app filter is_data_transfer List.length].
      repeat split; [lia|].
      intros [|[|k]] e H; try discriminate H.
      inversion H; subst. now exists r.
    + specialize (IH (i + 1) (off + 512)%nat
                     {| bus := c; CardType := CardType s |}).
      destruct (write_loop n _ _ _ _ _) as [[j s'] t].
      cbn [snd app filter is_data_transfer List.length] in *.
      destruct IH as (Hfilter & Hlen & Hnth).
      repeat split; [now rewrite Hfilter | lia |].
      intros [|k] e H.
      * inversion H; subst. now exists r.
      * cbn [nth_error] in H. destruct (Hnth k e H) as (r' & ->).
        exists r'. do 3 f_equal. lia.
Qed.

(** X17.  The data blocks of a write are the sectors of the buffer, in
    order and from its start: the [k]-th block sent carries the 512 bytes
    at offset [512 * k], under token 0xFE for a single sector and 0xFC
    otherwise, and no more than [count] blocks are sent. *)
Theorem disk_write_sends_sectors_in_order
    (pdrv sector count : Z) (buff : list Z) (s : state card)
    (k : nat) (e : event) :
  nth_error (filter is_data_transfer (snd (disk_write pdrv buff sector count s)))
    k = Some e ->
  Z.of_nat k < count
  /\ exists r,
       e = EvSendBlock pdrv (Some (sector_at buff (512 * k)))
             (if count =? 1 then 254 else 252) r.
Proof.
  unfold disk_write. run_bus.
  destruct (Z.eqb_spec count 1) as [->|Hone].
  - answer. destruct (r =? 0).
    + answer. destruct (negb (r0 =? 0)); cbn [snd app filter is_data_transfer];
        (destruct k as [|[|k]]; intros H; try discriminate H;
         inversion H; subst; split; [lia | now eexists]).
    + cbn [snd app filter is_data_transfer].
      destruct k; intros H; discriminate H.
  - destruct (negb (Z.land (CardType s) CT_SDC =? 0)); [answer|];
      answer;
      (match goal with |- context [if ?r =? 0 then _ else _] =>
         destruct (r =? 0) end;
       [| destruct (negb (count =? 0)); cbn [snd app filter is_data_transfer sends];
          destruct k; intros H; discriminate H]);
      (match goal with |- context [write_loop ?n ?i ?p ?b ?o ?s0] =>
         pose proof (write_loop_blocks p b n i o s0) as Hloop;
         destruct (write_loop n i p b o s0) as [[i1 s1] t1];
         cbn [snd] in Hloop; destruct Hloop as (Hfilter & Hlen & Hnth)
       end);
      answer;
      (match goal with |- context [if ?r =? 0 then _ else _] =>
         destruct (r =? 0) end);
      (match goal with |- context [negb (count =? ?i)] =>
         destruct (negb (count =? i)) end);
      cbn [snd app]; rewrite ?app_nil_r;
      repeat progress (rewrite ?filter_app; cbn [filter is_data_transfer app]);
      rewrite ?app_nil_r, Hfilter;
      intros H;
      (assert (Hk : (k < List.length t1)%nat)
         by (apply nth_error_Some; congruence));
      (split; [lia|]);
      destruct (Hnth k e H) as (r' & ->); now exists r'.
Qed.

(** ** The sector count of a standard-capacity card *)

Lemma land_low_bits (x n : Z) : 0 <= n -> 0 <= Z.land x (Z.ones n) < 2 ^ n.
Proof. intros Hn. rewrite Z.land_ones by lia. apply Z.mod_pos_bound. lia. Qed.

(** X20.  With bit 5 of byte 0 clear the count is read from the size,
    multiplier and block-length fields: [cs << (n - 9)].  For a block
    length and multiplier that make [n] at least 9 this is
    [cs * 2^(n - 9)], never more than 2^27 sectors, so the 32-bit shift
    loses nothing. *)
Theorem get_sector_count_v0
    (pdrv word ok : Z) (s : state card) (csd : list Z) (c1 c2 : card) :
  SendCommand_t pdrv CMD9 0 (bus s) = (0, c1) ->
  ReceiveBlock_t pdrv 16 c1 = (csd, ok, c2) ->
  ok <> 0 ->
  Z.land (nth 0 (block 16 csd) 0) 32 = 0 ->
  let b := block 16 csd in
  let n := Z.land (nth 5 b 0) 15 + Z.shiftr (nth 10 b 0) 7
           + Z.shiftl (Z.land (nth 9 b 0) 3) 1 + 2 in
  let cs := Z.shiftr (nth 9 b 0) 6 + Z.shiftl (nth 7 b 0) 2
            + Z.shiftl (Z.land (nth 6 b 0) 3) 10 + 1 in
  9 <= n ->
  fst (fst (disk_ioctl pdrv GET_SECTOR_COUNT word s))
  = (RES_OK, cs * 2 ^ (n - 9))
  /\ 1 <= cs <= 4096
  /\ n <= 24
  /\ cs * 2 ^ (n - 9) <= 2 ^ 27.
Proof.
  intros H9 Hcsd Hok Hv0 b n cs Hn.
  pose proof (block_byte 16 csd 5) as B5. pose proof (block_byte 16 csd 6) as B6.
  pose proof (block_byte 16 csd 7) as B7. pose proof (block_byte 16 csd 9) as B9.
  pose proof (block_byte 16 csd 10) as B10. fold b in B5, B6, B7, B9, B10.
  pose proof (land_low_bits (nth 5 b 0) 4 ltac:(lia)) as L5.
  pose proof (land_low_bits (nth 9 b 0) 2 ltac:(lia)) as L9.
  pose proof (land_low_bits (nth 6 b 0) 2 ltac:(lia)) as L6.
  change (Z.ones 4) with 15 in L5. change (Z.ones 2) with 3 in L9, L6.
  change (2 ^ 4) with 16 in L5. change (2 ^ 2) with 4 in L9, L6.
  assert (S10 : 0 <= Z.shiftr (nth 10 b 0) 7 <= 1).
  { rewrite Z.shiftr_div_pow2 by lia. change (2 ^ 7) with 128.
    split; [apply Z.div_pos; lia|].
    apply Z.lt_succ_r. apply Z.div_lt_upper_bound; lia. }
  assert (S9 : 0 <= Z.shiftr (nth 9 b 0) 6 <= 3).
  { rewrite Z.shiftr_div_pow2 by lia. change (2 ^ 6) with 64.
    split; [apply Z.div_pos; lia|].
    apply Z.lt_succ_r. apply Z.div_lt_upper_bound; lia. }
  assert (Hnr : n <= 24).
  { subst n. rewrite Z.shiftl_mul_pow2 by lia. change (2 ^ 1) with 2. lia. }
  assert (Hcs : 1 <= cs <= 4096).
  { subst cs. rewrite !Z.shiftl_mul_pow2 by lia.
    change (2 ^ 2) with 4. change (2 ^ 10) with 1024. lia. }
  assert (Hpow : 0 < 2 ^ (n - 9) <= 2 ^ 15).
  { split; [apply Z.pow_pos_nonneg; lia|].
    apply Z.pow_le_mono_r; lia. }
  change (2 ^ 15) with 32768 in Hpow.
  assert (Hprod : cs * 2 ^ (n - 9) <= 2 ^ 27).
  { change (2 ^ 27) with (4096 * 32768). nia. }
  repeat split; try lia.
  unfold disk_ioctl. run_bus.
  change (GET_SECTOR_COUNT =? CTRL_SYNC) with false.
  change (GET_SECTOR_COUNT =? GET_SECTOR_COUNT) with true. cbv beta iota.
  rewrite H9. cbn [Z.eqb fst snd bus CardType]. rewrite Hcsd.
  cbn [fst snd bus CardType].
  apply Z.eqb_neq in Hok. rewrite Hok, Hv0. cbn [Z.eqb negb fst snd app].
  fold b. unfold csd_sectors_v0, shl_uint. fold n cs.
  f_equal.
  replace (to_byte n) with n
    by (unfold to_byte; symmetry; apply Z.mod_small; lia).
  replace (to_uint cs) with cs
    by (unfold to_uint; symmetry; apply Z.mod_small; lia).
  rewrite (Z.mod_small (n - 9) 32) by lia.
  rewrite Z.shiftl_mul_pow2 by lia.
  unfold to_uint. apply Z.mod_small. change (2 ^ 27) with 134217728 in Hprod.
  change (2 ^ 32) with 4294967296. nia.
Qed.

(** ** Failed receives *)

Lemma read_loop_receipts (pdrv : Z) (n : nat) :
  forall i buff off s,
    let '(i', _, _, t) := read_loop n i pdrv buff off s in
    filter is_data_transfer t = t
    /\ (List.length t <= n)%nat
    /\ (i' = i + Z.of_nat n <-> Forall (fun e => delivered e = true) t)
    /\ i <= i' <= i + Z.of_nat n
    /\ (forall k e, nth_error t k = Some e -> delivered e = false ->
          S k = List.length t).
Proof.
  induction n as [|n IH]; intros i buff off s.
  - cbn. repeat split; try lia; try constructor.
    intros [|k] e H; discriminate H.
  - cbn [read_loop]. run_bus.
    destruct (ReceiveBlock_t pdrv 512 (bus s)) as [[d r] c]. cbn [fst snd].
    destruct (Z.eqb_spec r 0) as [->|Hr].
    + cbn [snd app filter is_data_transfer List.length].
      repeat split; try lia.
      * intros H. inversion H as [|? ? Hd _]. discriminate Hd.
      * intros [|[|k]] e H Hd; try discriminate H. reflexivity.
    + specialize (IH (i + 1) (store buff off (block 512 d)) (off + 512)%nat
                     {| bus := c; CardType := CardType s |}).
      destruct (read_loop n _ _ _ _ _) as [[[i' b] s'] t].
      cbn [snd app filter is_data_transfer List.length].
      destruct IH as (Hfilter & Hlen & Hall & Hi & Hlast).
      assert (Hd : delivered (EvReceiveBlock pdrv 512 (block 512 d) r) = true).
      { cbn. apply Z.eqb_neq in Hr. now rewrite Hr. }
      repeat split; try lia.
      * now rewrite Hfilter.
      * intros E. constructor; [exact Hd|]. apply Hall. lia.
      * intros H. inversion H as [|? ? _ Ht]; subst.
        apply Hall in Ht. lia.
      * intros [|k] e H He.
        -- inversion H; subst. congruence.
        -- cbn [nth_error] in H. f_equal. now apply (Hlast k e).
Qed.

(** X24.  Once the read command is acknowledged, the read succeeds
    exactly when no block receive failed.  At most [count] blocks are
    asked for, and none after a failed one. *)
Theorem disk_read_stops_at_failure
    (pdrv sector count : Z) (buff : list Z) (s : state card) :
  0 <= count ->
  fst (SendCommand_t pdrv (if 1 <? count then CMD18 else CMD17)
         (sd_address (CardType s) sector) (bus s)) = 0 ->
  let '(res, _, _, t) := disk_read pdrv buff sector count s in
  let blocks := filter is_data_transfer t in
  (res = RES_OK <-> Forall (fun e => delivered e = true) blocks)
  /\ Z.of_nat (List.length blocks) <= count
  /\ (forall k e, nth_error blocks k = Some e -> delivered e = false ->
        S k = List.length blocks).
Proof.
  intros Hcount Hack. unfold disk_read. run_bus.
  destruct (SendCommand_t pdrv _ _ (bus s)) as [r c]. cbn [fst] in Hack.
  subst r. cbn [Z.eqb].
  pose proof (read_loop_receipts pdrv (Z.to_nat count) 0 buff 0%nat
                {| bus := c; CardType := CardType s |}) as Hloop.
  destruct (read_loop _ _ _ _ _ _) as [[[i b] s1] t1].
  destruct Hloop as (Hfilter & Hlen & Hall & Hi & Hlast).
  rewrite Z2Nat.id in Hall, Hi by assumption. cbn [Z.add] in Hall.
  destruct (command_eqb _ CMD18);
    [destruct (SendCommand_t pdrv CMD12 0 (bus s1)) as [r12 c12]|];
    destruct (Z.eqb_spec i count) as [Hic|Hic];
    cbn [negb fst snd app]; rewrite ?app_nil_r;
    repeat progress (rewrite ?filter_app; cbn [filter is_data_transfer app]);
    rewrite ?app_nil_r, Hfilter;
    (split; [|split; [lia | exact Hlast]]);
    (split; [intros H; try discriminate H; now apply Hall
            | intros H; apply Hall in H; congruence]).
Qed.

End DiskFacts.

(** * Runs on the simulated bus *)

Section Runs.

Import DiskIO.

(** Two sectors from a high-capacity card in slot 0. *)
Lemma disk_read_stop_transmission_witness :
  snd (disk_read (transport := simulated one_card) 0 (repeat 0 1024) 7 2
         {| bus := None; CardType := 12 |})
  = [EvCommand 0 CMD18 7 0;
     EvReceiveBlock 0 512 (repeat 165 512) 1;
     EvReceiveBlock 0 512 (repeat 165 512) 1;
     EvCommand 0 CMD12 0 0;
     EvRelease 0].
Proof.
  apply (disk_read_stop_transmission (transport := simulated one_card)
           0 7 2 (repeat 0 1024) {| bus := None; CardType := 12 |});
    [lia | reflexivity].
Defined.

(** C2, as the spec has it, fails: two sectors are asked of the empty
    slot 1, CMD18 is answered 0xFF and no CMD12 follows. *)
Lemma disk_read_rejected_sends_no_stop :
  let t := snd (disk_read (transport := simulated one_card) 1 (repeat 0 1024)
                  0 2 {| bus := None; CardType := 0 |}) in
  t = [EvCommand 1 CMD18 0 255; EvRelease 1]
  /\ filter (sends CMD12) t = [].
Proof. split; reflexivity. Qed.

(** Three sectors to a card that refuses the stop token: every block is
    accepted and the write fails. *)
Lemma multi_write_stop_token_witness :
  fst (fst (disk_write (transport := simulated (fun _ => refuses_stop))
              0 (repeat 90 1536) 0 3 {| bus := None; CardType := 12 |}))
  = RES_ERROR.
Proof.
  apply (multi_write_stop_token (transport := simulated (fun _ => refuses_stop))
           0 0 3 (repeat 90 1536) {| bus := None; CardType := 12 |});
    [lia | reflexivity | reflexivity].
Defined.

(** The sector count of the simulated high-capacity card. *)
Lemma get_sector_count_v1_witness :
  fst (fst (disk_ioctl (transport := simulated one_card) 0 GET_SECTOR_COUNT 0
              {| bus := None; CardType := 12 |}))
  = (RES_OK, 4227860480).
Proof.
  apply (f_equal (fun x => fst (fst x))
           (proj1 (get_sector_count_v1 (transport := simulated one_card)
                     0 0 1 {| bus := None; CardType := 12 |}
                     [32; 0; 0; 0; 0; 0; 0; 63; 0; 1; 0; 0; 0; 0; 0; 0]
                     (Some CMD9) (Some CMD9)
                     eq_refl eq_refl ltac:(discriminate) ltac:(discriminate)))).
Defined.

(** The card in slot 0 never leaves the idle state: all 10000 polls of
    ACMD41 are answered 1. *)
Lemma initialize_polling_exhausted_witness :
  fst (fst (disk_initialize (transport := simulated (fun _ => stuck)) 0
              {| bus := None; CardType := 12 |})) = STA_NOINIT
  /\ CardType (snd (fst (disk_initialize
                           (transport := simulated (fun _ => stuck)) 0
                           {| bus := None; CardType := 12 |}))) = 0.
Proof.
  apply (initialize_polling_exhausted (transport := simulated (fun _ => stuck))
           0 {| bus := None; CardType := 12 |}
           ACMD41 (Z.shiftl 1 30) (Some CMD8));
    vm_compute; reflexivity.
Defined.

(** The high-capacity card in slot 0 goes through the whole handshake and
    is typed SDv2 with block addressing. *)
Lemma initialize_sdv2_witness :
  let type :=
    CardType (snd (fst (disk_initialize (transport := simulated one_card) 0
                          {| bus := None; CardType := 0 |}))) in
  fst (fst (disk_initialize (transport := simulated one_card) 0
              {| bus := None; CardType := 0 |})) = 0
  /\ Z.land type CT_SDC2 = CT_SDC2
  /\ Z.land type (Z.lor CT_MMC CT_SDC1) = 0
  /\ (Z.land type CT_BLOCK = CT_BLOCK
      <-> Z.land (nth 0 (block 4 [192; 255; 128; 0]) 0) 64 <> 0).
Proof.
  apply (initialize_sdv2 (transport := simulated one_card)
           0 {| bus := None; CardType := 0 |}
           (Some CMD0) (Some CMD8) (Some CMD8) (Some ACMD41)
           (Some CMD58) (Some CMD58)
           [0; 0; 1; 170] [192; 255; 128; 0]);
    reflexivity.
Defined.

(** C3, as the spec has it, fails.  Slot 0 holds a block-addressed card,
    slot 1 is empty.  After drive 0 is initialised sector 3 is read at
    address 3; initialising drive 1 then sets the card type to 0, and the
    same read on drive 0 goes to address 1536. *)
Lemma initialize_other_drive_changes_card_type :
  let s0 := {| bus := None; CardType := 0 |} in
  let s1 := snd (fst (disk_initialize (transport := simulated one_card) 0 s0)) in
  let s2 := snd (fst (disk_initialize (transport := simulated one_card) 1 s1)) in
  CardType s1 = 12
  /\ CardType s2 = 0
  /\ hd_error (snd (disk_read (transport := simulated one_card) 0
                      (repeat 0 512) 3 1 s1))
     = Some (EvCommand 0 CMD17 3 0)
  /\ hd_error (snd (disk_read (transport := simulated one_card) 0
                      (repeat 0 512) 3 1 s2))
     = Some (EvCommand 0 CMD17 1536 0).
Proof. vm_compute. repeat split. Qed.

(** ** More runs *)

(** The SDv1 card of slot 0 is typed SDv1. *)
Lemma initialize_legacy_witness :
  fst (disk_initialize (transport := simulated (fun _ => sdsc)) 0
         {| bus := None; CardType := 0 |})
  = (0, {| bus := Some CMD16; CardType := CT_SDC1 |}).
Proof.
  apply (initialize_legacy (transport := simulated (fun _ => sdsc))
           0 5 0 0 {| bus := None; CardType := 0 |}
           (Some CMD0) (Some CMD8) (Some ACMD41) (Some ACMD41) (Some CMD16));
    first [reflexivity | discriminate].
Defined.

(** Drive 1 of the one-card bus is empty. *)
Lemma initialize_no_card_witness :
  fst (fst (disk_initialize (transport := simulated one_card) 1
              {| bus := None; CardType := 12 |}))
  = STA_NOINIT.
Proof.
  apply (f_equal (fun x => fst (fst x))
           (initialize_no_card (transport := simulated one_card) 1
              {| bus := None; CardType := 12 |} ltac:(discriminate))).
Defined.

(** The card echoes 0x55 for 0xAA. *)
Lemma initialize_wrong_echo_witness :
  fst (fst (disk_initialize (transport := simulated (fun _ => wrong_voltage)) 0
              {| bus := None; CardType := 12 |}))
  = STA_NOINIT.
Proof.
  rewrite (initialize_wrong_echo (transport := simulated (fun _ => wrong_voltage))
             0 {| bus := None; CardType := 12 |}
             (Some CMD0) (Some CMD8) (Some CMD8) [0; 0; 1; 85]);
    [reflexivity | reflexivity | reflexivity | reflexivity
    | right; discriminate].
Defined.

(** The card becomes ready and then answers CMD58 with 0x05. *)
Lemma initialize_ocr_refused_witness :
  fst (disk_initialize (transport := simulated (fun _ => no_ocr)) 0
         {| bus := None; CardType := 12 |})
  = (STA_NOINIT, {| bus := Some CMD58; CardType := 0 |}).
Proof.
  apply (initialize_ocr_refused (transport := simulated (fun _ => no_ocr))
           0 5 {| bus := None; CardType := 12 |}
           (Some CMD0) (Some CMD8) (Some CMD8) (Some ACMD41) (Some CMD58)
           [0; 0; 1; 170]);
    first [reflexivity | discriminate].
Defined.

(** One sector is asked of the empty slot 1. *)
Lemma disk_read_rejected_witness :
  disk_read (transport := simulated one_card) 1 (repeat 7 512) 4 1
    {| bus := None; CardType := 12 |}
  = ((RES_ERROR, repeat 7 512),
     {| bus := Some CMD17; CardType := 12 |},
     [EvCommand 1 CMD17 4 255; EvRelease 1]).
Proof.
  apply (disk_read_rejected (transport := simulated one_card)
           1 4 1 (repeat 7 512) {| bus := None; CardType := 12 |}).
  discriminate.
Defined.

(** Two sectors are read into a buffer of three; the third is kept. *)
Lemma disk_read_fills_buffer_witness :
  let '(res, buff', _, t) :=
    disk_read (transport := simulated one_card) 0 (repeat 7 1536) 0 2
      {| bus := None; CardType := 12 |} in
  List.length buff' = List.length (repeat 7 1536)
  /\ skipn (512 * Z.to_nat 2) buff' = skipn (512 * Z.to_nat 2) (repeat 7 1536)
  /\ (res = RES_OK ->
      buff' = flat_map received t ++ skipn (512 * Z.to_nat 2) (repeat 7 1536)).
Proof.
  apply (disk_read_fills_buffer (transport := simulated one_card)
           0 0 2 (repeat 7 1536) {| bus := None; CardType := 12 |}).
  apply Nat.leb_le. vm_compute. reflexivity.
Defined.

(** Three sectors are to be written to the empty slot 1. *)
Lemma disk_write_rejected_witness :
  disk_write (transport := simulated one_card) 1 (repeat 7 1536) 4 3
    {| bus := None; CardType := 12 |}
  = (RES_ERROR,
     {| bus := Some CMD25; CardType := 12 |},
     [EvCommand 1 ACMD23 3 255; EvCommand 1 CMD25 4 255; EvRelease 1]).
Proof.
  apply (disk_write_rejected (transport := simulated one_card)
           1 4 3 (repeat 7 1536) {| bus := None; CardType := 12 |}).
  discriminate.
Defined.

(** The second block of a two-sector write is the second sector. *)
Lemma disk_write_sends_sectors_in_order_witness :
  Z.of_nat 1 < 2
  /\ exists r,
       EvSendBlock 0 (Some (repeat 9 512)) 252 1
       = EvSendBlock 0
           (Some (sector_at (repeat 7 512 ++ repeat 9 512) (512 * 1)))
           (if 2 =? 1 then 254 else 252) r.
Proof.
  apply (disk_write_sends_sectors_in_order (transport := simulated one_card)
           0 0 2 (repeat 7 512 ++ repeat 9 512)
           {| bus := None; CardType := 12 |} 1).
  vm_compute. reflexivity.
Defined.

(** An unknown control code, 9. *)
Lemma disk_ioctl_simple_codes_witness :
  disk_ioctl (transport := simulated one_card) 0 9 77
    {| bus := None; CardType := 12 |}
  = ((RES_PARERR, 77), {| bus := None; CardType := 12 |}, [EvRelease 0]).
Proof.
  apply (proj2 (proj2 (disk_ioctl_simple_codes (transport := simulated one_card)
                         0 9 77 {| bus := None; CardType := 12 |})));
    discriminate.
Defined.

(** The sector count of the empty slot 1. *)
Lemma get_sector_count_failure_witness :
  disk_ioctl (transport := simulated one_card) 1 GET_SECTOR_COUNT 77
    {| bus := None; CardType := 12 |}
  = ((RES_ERROR, 77), {| bus := Some CMD9; CardType := 12 |},
     [EvCommand 1 CMD9 0 255; EvRelease 1]).
Proof.
  apply (proj1 (get_sector_count_failure (transport := simulated one_card)
                  1 77 {| bus := None; CardType := 12 |})).
  discriminate.
Defined.

(** The 1 GiB card: size field 4095, multiplier field 7, block length
    2^9 give 4096 * 2^9 sectors. *)
Lemma get_sector_count_v0_witness :
  fst (fst (disk_ioctl (transport := simulated (fun _ => sdsc)) 0
              GET_SECTOR_COUNT 0 {| bus := None; CardType := 2 |}))
  = (RES_OK, 2097152).
Proof.
  apply (proj1 (get_sector_count_v0 (transport := simulated (fun _ => sdsc))
                  0 0 1 {| bus := None; CardType := 2 |}
                  [0; 0; 0; 0; 0; 9; 3; 255; 0; 195; 128; 0; 0; 0; 0; 0]
                  (Some CMD9) (Some CMD9)
                  eq_refl eq_refl ltac:(discriminate) eq_refl
                  ltac:(vm_compute; discriminate))).
Defined.

(** Sector 2^23 + 3 on a byte-addressed card. *)
Lemma sd_address_modes_witness :
  sd_address 4 (2 ^ 23 + 3) = sd_address 4 ((2 ^ 23 + 3) mod 2 ^ 23).
Proof.
  apply (sd_address_modes 4 (2 ^ 23 + 3)); [lia | reflexivity].
Defined.

(** Three sectors from the high-capacity card. *)
Lemma disk_read_stops_at_failure_witness :
  let '(res, _, _, t) :=
    disk_read (transport := simulated one_card) 0 (repeat 7 1536) 0 3
      {| bus := None; CardType := 12 |} in
  let blocks := filter is_data_transfer t in
  (res = RES_OK <-> Forall (fun e => delivered e = true) blocks)
  /\ Z.of_nat (List.length blocks) <= 3
  /\ (forall k e, nth_error blocks k = Some e -> delivered e = false ->
        S k = List.length blocks).
Proof.
  apply (disk_read_stops_at_failure (transport := simulated one_card)
           0 0 3 (repeat 7 1536) {| bus := None; CardType := 12 |});
    [lia | reflexivity].
Defined.

End Runs.

(** * Properties of the 64-bit multiply *)

Section MulFacts.

Import MulDI3.

Lemma word_range (z : Z) : 0 <= word z < 2 ^ 32.
Proof. unfold word. apply Z.mod_pos_bound. lia. Qed.

(** The three partial products give the low 64 bits of the product of any
    two unsigned operands. *)
Lemma partial_products (a0 a1 b0 b1 : Z) :
  0 <= a0 -> 0 <= b0 ->
  u64 (GETQX a0 b0) (ADD (ADD (GETQY a0 b0) (GETQX a1 b0)) (GETQX a0 b1))
  = (u64 a0 a1 * u64 b0 b1) mod 2 ^ 64.
Proof.
  intros Ha0 Hb0. unfold u64, GETQX, GETQY, ADD, word.
  set (P := a0 * b0).
  set (H := P / 2 ^ 32 + a1 * b0 + a0 * b1).
  assert (Hh : ((P / 2 ^ 32) mod 2 ^ 32 + (a1 * b0) mod 2 ^ 32) mod 2 ^ 32
               = (P / 2 ^ 32 + a1 * b0) mod 2 ^ 32)
    by (now rewrite <- Z.add_mod by lia).
  rewrite Hh, Z.add_mod_idemp_l, Z.add_mod_idemp_r by lia. fold H.
  pose proof (Z.div_mod P (2 ^ 32) ltac:(lia)) as HP.
  pose proof (Z.div_mod H (2 ^ 32) ltac:(lia)) as HH.
  pose proof (Z.mod_pos_bound P (2 ^ 32) ltac:(lia)) as BP.
  pose proof (Z.mod_pos_bound H (2 ^ 32) ltac:(lia)) as BH.
  replace ((a0 + 2 ^ 32 * a1) * (b0 + 2 ^ 32 * b1))
    with (P mod 2 ^ 32 + 2 ^ 32 * (H mod 2 ^ 32)
          + (H / 2 ^ 32 + a1 * b1) * 2 ^ 64).
  - rewrite Z.mod_add by lia. symmetry. apply Z.mod_small.
    change (2 ^ 64) with (2 ^ 32 * 2 ^ 32). nia.
  - subst H P. change (2 ^ 64) with (2 ^ 32 * 2 ^ 32).
    set (q := (a0 * b0 / 2 ^ 32 + a1 * b0 + a0 * b1) / 2 ^ 32) in *.
    set (m := (a0 * b0 / 2 ^ 32 + a1 * b0 + a0 * b1) mod 2 ^ 32) in *.
    set (q0 := a0 * b0 / 2 ^ 32) in *.
    set (m0 := (a0 * b0) mod 2 ^ 32) in *.
    lia.
Qed.

Lemma sign_clear (r : Z) : 0 <= r < 2 ^ 31 -> SHR r 31 = 0.
Proof.
  intros Hr. unfold SHR. rewrite Z.shiftr_div_pow2 by lia.
  now apply Z.div_small.
Qed.

Lemma sign_set (r : Z) : 2 ^ 31 <= r < 2 ^ 32 -> SHR r 31 = 1.
Proof.
  intros Hr. unfold SHR. rewrite Z.shiftr_div_pow2 by lia.
  symmetry. apply (Z.div_unique r (2 ^ 31) 1 (r - 2 ^ 31)); lia.
Qed.

(** X22.  For operands that are not negative the routine returns the low
    64 bits of the product, whatever the carry flag holds on entry. *)
Theorem muldi3_nonnegative (c : bool) (r0 r1 r2 r3 : Z) :
  0 <= r0 < 2 ^ 32 ->
  0 <= r1 < 2 ^ 31 ->
  0 <= r2 < 2 ^ 32 ->
  0 <= r3 < 2 ^ 31 ->
  let '(r30, r31) := __muldi3 c r0 r1 r2 r3 in
  u64 r30 r31 = (s64 r0 r1 * s64 r2 r3) mod 2 ^ 64
  /\ 0 <= r30 < 2 ^ 32
  /\ 0 <= r31 < 2 ^ 32.
Proof.
  intros H0 H1 H2 H3. unfold __muldi3, s64.
  rewrite (sign_clear r1 H1), (sign_clear r3 H3).
  replace (r1 <? 2 ^ 31) with true by (symmetry; apply Z.ltb_lt; lia).
  replace (r3 <? 2 ^ 31) with true by (symmetry; apply Z.ltb_lt; lia).
  cbn [XOR Z.lxor Z.eqb].
  split; [apply partial_products; lia|].
  split; [apply word_range | apply word_range].
Qed.

Lemma not_word (x : Z) : 0 <= x < 2 ^ 32 -> NOT x = 2 ^ 32 - 1 - x.
Proof.
  intros Hx. unfold NOT, word. symmetry.
  apply (Z.mod_unique (Z.lnot x) (2 ^ 32) (-1)); [lia|].
  unfold Z.lnot. lia.
Qed.

(** Two's complement of a register pair, as the routine does it, when the
    carry flag is clear and the low word is not 0. *)
Lemma negate_pair (lo hi : Z) :
  0 <= lo < 2 ^ 32 -> 0 <= hi < 2 ^ 32 -> lo <> 0 ->
  ADD (NOT lo) 1 = 2 ^ 32 - lo
  /\ ADDX false (NOT hi) 0 = 2 ^ 32 - 1 - hi.
Proof.
  intros Hlo Hhi Hnz. rewrite !not_word by assumption.
  unfold ADD, ADDX, word. cbn [Z.b2z].
  replace (2 ^ 32 - 1 - lo + 1) with (2 ^ 32 - lo) by lia.
  replace (2 ^ 32 - 1 - hi + 0 + 0) with (2 ^ 32 - 1 - hi) by lia.
  split; apply Z.mod_small; lia.
Qed.

Lemma low_word_opp_l (x y : Z) :
  (x * y) mod 2 ^ 32 <> 0 -> GETQX (2 ^ 32 - x) y <> 0.
Proof.
  intros Hxy H. apply Hxy. unfold GETQX, word in H.
  apply Z.mod_divide in H; [|lia]. destruct H as [k Hk].
  apply Z.mod_divide; [lia|]. exists (y - k). lia.
Qed.

Lemma low_word_opp_r (x y : Z) :
  (x * y) mod 2 ^ 32 <> 0 -> GETQX x (2 ^ 32 - y) <> 0.
Proof.
  intros Hxy H. apply Hxy. unfold GETQX, word in H.
  apply Z.mod_divide in H; [|lia]. destruct H as [k Hk].
  apply Z.mod_divide; [lia|]. exists (x - k). lia.
Qed.

(** X23.  With the carry flag clear on entry the routine returns the low
    64 bits of the signed product whenever every pair it negates has a
    low word other than 0: the low word of each negative operand, and the
    low word of the product when the signs differ. *)
Theorem muldi3_signed (r0 r1 r2 r3 : Z) :
  0 <= r0 < 2 ^ 32 ->
  0 <= r1 < 2 ^ 32 ->
  0 <= r2 < 2 ^ 32 ->
  0 <= r3 < 2 ^ 32 ->
  (2 ^ 31 <= r1 -> r0 <> 0) ->
  (2 ^ 31 <= r3 -> r2 <> 0) ->
  ((r1 <? 2 ^ 31) <> (r3 <? 2 ^ 31) -> (r0 * r2) mod 2 ^ 32 <> 0) ->
  let '(r30, r31) := __muldi3 false r0 r1 r2 r3 in
  u64 r30 r31 = (s64 r0 r1 * s64 r2 r3) mod 2 ^ 64.
Proof.
  intros H0 H1 H2 H3 Ha Hb Hab. unfold __muldi3, s64.
  destruct (Z.ltb_spec r1 (2 ^ 31)) as [P1|N1],
           (Z.ltb_spec r3 (2 ^ 31)) as [P3|N3].
  - rewrite (sign_clear r1), (sign_clear r3) by lia.
    cbn [XOR Z.lxor Z.eqb]. apply partial_products; lia.
  - rewrite (sign_clear r1), (sign_set r3) by lia.
    change (XOR 0 1) with 1. cbn [Z.eqb].
    destruct (negate_pair r2 r3 H2 H3 (Hb N3)) as [-> ->].
    pose proof (partial_products r0 r1 (2 ^ 32 - r2) (2 ^ 32 - 1 - r3)
                  ltac:(lia) ltac:(lia)) as Hcore.
    set (r30 := GETQX r0 (2 ^ 32 - r2)) in *.
    set (r31 := ADD (ADD (GETQY r0 (2 ^ 32 - r2))
                       (GETQX r1 (2 ^ 32 - r2)))
                  (GETQX r0 (2 ^ 32 - 1 - r3))) in *.
    assert (R30 : 0 <= r30 < 2 ^ 32) by apply word_range.
    assert (R31 : 0 <= r31 < 2 ^ 32) by apply word_range.
    assert (Z30 : r30 <> 0)
      by (apply low_word_opp_r, Hab; discriminate).
    destruct (negate_pair r30 r31 R30 R31 Z30) as [-> ->].
    pose proof (Z.div_mod (u64 r0 r1 * u64 (2 ^ 32 - r2) (2 ^ 32 - 1 - r3))
                  (2 ^ 64) ltac:(lia)) as Hdiv.
    rewrite <- Hcore in Hdiv.
    set (q := _ / 2 ^ 64) in Hdiv. unfold u64 in *.
    apply (Z.mod_unique _ (2 ^ 64) (- q - 1)); lia.
  - rewrite (sign_set r1), (sign_clear r3) by lia.
    change (XOR 1 0) with 1. cbn [Z.eqb].
    destruct (negate_pair r0 r1 H0 H1 (Ha N1)) as [-> ->].
    pose proof (partial_products (2 ^ 32 - r0) (2 ^ 32 - 1 - r1) r2 r3
                  ltac:(lia) ltac:(lia)) as Hcore.
    set (r30 := GETQX (2 ^ 32 - r0) r2) in *.
    set (r31 := ADD (ADD (GETQY (2 ^ 32 - r0) r2)
                       (GETQX (2 ^ 32 - 1 - r1) r2))
                  (GETQX (2 ^ 32 - r0) r3)) in *.
    assert (R30 : 0 <= r30 < 2 ^ 32) by apply word_range.
    assert (R31 : 0 <= r31 < 2 ^ 32) by apply word_range.
    assert (Z30 : r30 <> 0)
      by (apply low_word_opp_l, Hab; discriminate).
    destruct (negate_pair r30 r31 R30 R31 Z30) as [-> ->].
    pose proof (Z.div_mod (u64 (2 ^ 32 - r0) (2 ^ 32 - 1 - r1) * u64 r2 r3)
                  (2 ^ 64) ltac:(lia)) as Hdiv.
    rewrite <- Hcore in Hdiv.
    set (q := _ / 2 ^ 64) in Hdiv. unfold u64 in *.
    apply (Z.mod_unique _ (2 ^ 64) (- q - 1)); lia.
  - rewrite (sign_set r1), (sign_set r3) by lia.
    change (XOR 1 1) with 0. cbn [Z.eqb].
    destruct (negate_pair r0 r1 H0 H1 (Ha N1)) as [-> ->].
    destruct (negate_pair r2 r3 H2 H3 (Hb N3)) as [-> ->].
    rewrite partial_products by lia.
    pose proof (Z.div_mod (u64 (2 ^ 32 - r0) (2 ^ 32 - 1 - r1)
                           * u64 (2 ^ 32 - r2) (2 ^ 32 - 1 - r3))
                  (2 ^ 64) ltac:(lia)) as Hdiv.
    pose proof (Z.mod_pos_bound
                  (u64 (2 ^ 32 - r0) (2 ^ 32 - 1 - r1)
                   * u64 (2 ^ 32 - r2) (2 ^ 32 - 1 - r3))
                  (2 ^ 64) ltac:(lia)) as Hbound.
    set (m := _ mod 2 ^ 64) in *. set (q := _ / 2 ^ 64) in Hdiv.
    unfold u64 in *.
    apply (Z.mod_unique _ (2 ^ 64) q); lia.
Qed.

(** 3000000000 * 5 and -3 * 7. *)
Lemma muldi3_nonnegative_witness :
  let '(r30, r31) := __muldi3 true 3000000000 0 5 0 in
  u64 r30 r31 = (s64 3000000000 0 * s64 5 0) mod 2 ^ 64
  /\ 0 <= r30 < 2 ^ 32
  /\ 0 <= r31 < 2 ^ 32.
Proof.
  apply (muldi3_nonnegative true 3000000000 0 5 0); lia.
Defined.

Lemma muldi3_signed_witness :
  let '(r30, r31) := __muldi3 false (2 ^ 32 - 3) (2 ^ 32 - 1) 7 0 in
  u64 r30 r31 = (s64 (2 ^ 32 - 3) (2 ^ 32 - 1) * s64 7 0) mod 2 ^ 64.
Proof.
  apply (muldi3_signed (2 ^ 32 - 3) (2 ^ 32 - 1) 7 0);
    try lia; intros _; vm_compute; discriminate.
Defined.

End MulFacts.
